(** * Sticky-net honeypot: engagement policy, persona store and orchestrator

    A shallow embedding of [src/agents/policy.py], [src/agents/persona.py]
    and the decision logic of [src/agents/honeypot_agent.py], with the
    properties of the engagement state machine proved over it.

    Conventions of the embedding:
    - a Python [int] is a [Z];
    - a Python [float] is an IEEE-754 binary64 value, [spec_float] with
      precision 53 and [emax = 1024]; arithmetic is the correctly rounded
      arithmetic of [SpecFloat], comparisons are [SFltb]/[SFleb] (every
      comparison with a NaN is false);
    - a Python [str] is a [string]; only the operations the agent uses are
      modelled, on characters with codes below 256;
    - the persona dictionary is a [gmap string Persona]; a persona object
      reached through the dictionary is the dictionary's entry, so a
      mutation through the reference is an update of that entry;
    - a Python exception is [None] in the [option] monad;
    - every random draw is an explicit argument. *)

From Stdlib Require Import ZArith Bool List String Ascii Lia.
From Stdlib Require Import Floats.SpecFloat Numbers.DecimalString.
From stdpp Require Import gmap strings.

Local Open Scope Z_scope.
Local Open Scope string_scope.

(** ** Python floats *)

Module PyFloat.

Definition float := spec_float.

Definition prec : Z := 53.
Definition emax : Z := 1024.

(** The double nearest to an integer (round half to even). *)
Definition of_Z (z : Z) : float := binary_normalize prec emax z 0 false.

(** [float(int)]: CPython raises [OverflowError] where the rounded value
    would not be finite. *)
Definition of_int (z : Z) : option float :=
  match of_Z z with
  | S754_infinity _ => None
  | f => Some f
  end.

Definition add (x y : float) : float := SFadd prec emax x y.
Definition sub (x y : float) : float := SFsub prec emax x y.
Definition mul (x y : float) : float := SFmul prec emax x y.
Definition div (x y : float) : float := SFdiv prec emax x y.

(** The decimal literal [n/d]: the double nearest to the rational [n/d],
    which is the correctly rounded quotient of two doubles that hold [n]
    and [d] exactly. *)
Definition lit (n d : Z) : float := div (of_Z n) (of_Z d).

(** [x < y], [x > y], [x <= y], [x >= y] *)
Definition lt (x y : float) : bool := SFltb x y.
Definition gt (x y : float) : bool := SFltb y x.
Definition le (x y : float) : bool := SFleb x y.
Definition ge (x y : float) : bool := SFleb y x.

(** [min(a, b)] on two arguments keeps [a] unless [b < a]. *)
Definition min (a b : float) : float := if lt b a then b else a.

Definition zero : float := S754_zero false.
Definition one : float := of_Z 1.

(** [math.isnan(x)] *)
Definition is_nan (x : float) : bool :=
  match x with S754_nan => true | _ => false end.

(** The place of a number in the order of the floats, as a triple
    compared lexicographically: the class (the infinities outermost, the
    zeros in the middle), then exponent and mantissa, both negated for a
    negative number. A NaN has no place. *)
Definition key (x : float) : option (Z * Z * Z) :=
  match x with
  | S754_nan => None
  | S754_infinity true => Some (-2, 0, 0)
  | S754_finite true m e => Some (-1, - e, Z.neg m)
  | S754_zero _ => Some (0, 0, 0)
  | S754_finite false m e => Some (1, e, Z.pos m)
  | S754_infinity false => Some (2, 0, 0)
  end.

Definition key_lt (a b : Z * Z * Z) : Prop :=
  let '(c1, e1, m1) := a in
  let '(c2, e2, m2) := b in
  c1 < c2 \/ (c1 = c2 /\ (e1 < e2 \/ (e1 = e2 /\ m1 < m2))).

End PyFloat.

Abbreviation float := PyFloat.float.

(** ** [src/agents/policy.py] *)

Module Policy.

Inductive EngagementMode := NONE | CAUTIOUS | AGGRESSIVE.

Definition EngagementMode_eqb (a b : EngagementMode) : bool :=
  match a, b with
  | NONE, NONE | CAUTIOUS, CAUTIOUS | AGGRESSIVE, AGGRESSIVE => true
  | _, _ => false
  end.

Record EngagementState := {
  mode : EngagementMode;
  turn_count : Z;
  duration_seconds : Z;
  intelligence_complete : bool;
  scammer_suspicious : bool;
  turns_since_new_info : Z
}.

(** The values [config.settings.get_settings()] supplies; the settings
    module is outside the modelled sources, so they are a record. *)
Record Settings := {
  cautious_confidence_threshold : float;
  aggressive_confidence_threshold : float;
  max_engagement_turns_cautious : Z;
  max_engagement_turns_aggressive : Z;
  max_engagement_duration_seconds : Z
}.

Record EngagementPolicy := {
  cautious_threshold : float;
  aggressive_threshold : float;
  max_turns_cautious : Z;
  max_turns_aggressive : Z;
  max_duration_seconds : Z;
  stale_turn_threshold : Z
}.

(** [EngagementPolicy.__init__] *)
Definition init (settings : Settings) : EngagementPolicy := {|
  cautious_threshold := cautious_confidence_threshold settings;
  aggressive_threshold := aggressive_confidence_threshold settings;
  max_turns_cautious := max_engagement_turns_cautious settings;
  max_turns_aggressive := max_engagement_turns_aggressive settings;
  max_duration_seconds := max_engagement_duration_seconds settings;
  stale_turn_threshold := 5
|}.

(** The settings the comments of [__init__] document. *)
Definition documented_settings : Settings := {|
  cautious_confidence_threshold := PyFloat.lit 60 100;
  aggressive_confidence_threshold := PyFloat.lit 85 100;
  max_engagement_turns_cautious := 10;
  max_engagement_turns_aggressive := 25;
  max_engagement_duration_seconds := 600
|}.

Section WithPolicy.
Variable self : EngagementPolicy.

Definition get_engagement_mode (confidence : float) : EngagementMode :=
  if PyFloat.ge confidence (aggressive_threshold self) then AGGRESSIVE
  else if PyFloat.ge confidence (cautious_threshold self) then CAUTIOUS
  else NONE.

(** The conditional expression both methods start with. *)
Definition max_turns (state : EngagementState) : Z :=
  if EngagementMode_eqb (mode state) AGGRESSIVE
  then max_turns_aggressive self
  else max_turns_cautious self.

Definition should_continue (state : EngagementState) : bool :=
  let max_turns := max_turns state in
  if turn_count state >=? max_turns then false
  else if duration_seconds state >=? max_duration_seconds self then false
  else if intelligence_complete state then false
  else if scammer_suspicious state then false
  else if turns_since_new_info state >=? stale_turn_threshold self then false
  else true.

(** [str(n)] for an [int]. *)
Definition str_of_int (n : Z) : string :=
  NilZero.string_of_int (Z.to_int n).

Definition get_exit_reason (state : EngagementState) : option string :=
  let max_turns := max_turns state in
  if turn_count state >=? max_turns then
    Some ("Max turns reached (" ++ str_of_int max_turns ++ ")")
  else if duration_seconds state >=? max_duration_seconds self then
    Some ("Max duration exceeded ("
            ++ str_of_int (max_duration_seconds self) ++ "s)")
  else if intelligence_complete state then
    Some "Intelligence extraction complete"
  else if scammer_suspicious state then
    Some "Scammer became suspicious"
  else if turns_since_new_info state >=? stale_turn_threshold self then
    Some ("No new information in "
            ++ str_of_int (stale_turn_threshold self) ++ " turns")
  else None.

End WithPolicy.

End Policy.

(** ** Python strings *)

Module PyStr.

(** [s.startswith(p)] *)
Definition startswith (s p : string) : bool := String.prefix p s.

(** [needle in hay] *)
Fixpoint contains (needle hay : string) : bool :=
  String.prefix needle hay ||
  match hay with
  | EmptyString => false
  | String _ rest => contains needle rest
  end.

(** [c.lower()] on the characters below 256: the ASCII capitals and the
    Latin-1 capitals (all of 0xC0..0xDE but the multiplication sign). *)
Definition lower_char (c : ascii) : ascii :=
  let n := nat_of_ascii c in
  if ((65 <=? n) && (n <=? 90))%nat then ascii_of_nat (n + 32)
  else if ((192 <=? n) && (n <=? 222) && negb (n =? 215))%nat
       then ascii_of_nat (n + 32)
  else c.

Fixpoint lower (s : string) : string :=
  match s with
  | EmptyString => EmptyString
  | String c rest => String (lower_char c) (lower rest)
  end.

(** [s.lstrip(...)] and [s.rstrip(...)], the stripped characters given
    as a predicate. *)
Fixpoint lstrip_by (strip_it : ascii -> bool) (s : string) : string :=
  match s with
  | EmptyString => EmptyString
  | String c rest => if strip_it c then lstrip_by strip_it rest else s
  end.

Fixpoint rstrip_by (strip_it : ascii -> bool) (s : string) : string :=
  match s with
  | EmptyString => EmptyString
  | String c rest =>
      match rstrip_by strip_it rest with
      | EmptyString => if strip_it c then EmptyString else String c EmptyString
      | kept => String c kept
      end
  end.

(** Whitespace for [str.strip()] among the characters below 256. *)
Definition is_space (c : ascii) : bool :=
  let n := nat_of_ascii c in
  (((9 <=? n) && (n <=? 13)) || ((28 <=? n) && (n <=? 32))
   || (n =? 133) || (n =? 160))%nat.

(** [s.strip()] *)
Definition strip (s : string) : string :=
  rstrip_by is_space (lstrip_by is_space s).

(** [s.rstrip(".")] *)
Definition rstrip_dot (s : string) : string :=
  rstrip_by (fun c => Ascii.eqb c ".") s.

(** Truth value of a string: non-empty. *)
Definition truthy (s : string) : bool :=
  match s with EmptyString => false | _ => true end.

(** The string is not empty and its last character is not one that
    [strip_it] strips. *)
Fixpoint ends_outside (strip_it : ascii -> bool) (s : string) : bool :=
  match s with
  | EmptyString => false
  | String c EmptyString => negb (strip_it c)
  | String _ rest => ends_outside strip_it rest
  end.

(** [sep.join(parts)] *)
Fixpoint join (sep : string) (parts : list string) : string :=
  match parts with
  | [] => EmptyString
  | [part] => part
  | part :: rest => part ++ sep ++ join sep rest
  end.

(** The newline and the double quote. *)
Definition nl : string := String (ascii_of_nat 10) EmptyString.
Definition dquote : string := String (ascii_of_nat 34) EmptyString.

End PyStr.

(** ** Module [random] *)

Module PyRandom.

(** [random.choice(seq)]: [seq[r]] for an index [r] below [len(seq)],
    [IndexError] on an empty sequence. The draw is any natural number,
    reduced modulo the length. *)
Definition choice {A} (r : nat) (seq : list A) : option A :=
  match seq with
  | [] => None
  | _ => nth_error seq (Nat.modulo r (List.length seq))
  end.

(** [random.random()] returns a float [u] with [0.0 <= u < 1.0]. *)
Definition unit_draw (u : float) : Prop :=
  PyFloat.le PyFloat.zero u = true /\ PyFloat.lt u PyFloat.one = true.

End PyRandom.

(** ** [src/agents/persona.py] *)

Module PersonaM.

Inductive PersonaTrait :=
  TRUSTING | WORRIED | CONFUSED | COOPERATIVE | TECH_NAIVE.

Inductive EmotionalState :=
  CALM | ANXIOUS | PANICKED | RELIEVED | SUSPICIOUS.

(** The values a [dict[str, Any]] of details may hold. *)
Inductive PyValue :=
| PyNone
| PyBool (b : bool)
| PyInt (z : Z)
| PyFlt (f : float)
| PyString (s : string).

Record Persona := {
  traits : list PersonaTrait;
  emotional_state : EmotionalState;
  engagement_turn : Z;
  extracted_info_count : Z;
  claimed_issues : list string;
  mentioned_details : gmap string PyValue
}.

(** [Persona()]: every field at its default; the default factories
    build fresh containers at each call. *)
Definition new_persona : Persona := {|
  traits := [TRUSTING; WORRIED; TECH_NAIVE];
  emotional_state := CALM;
  engagement_turn := 0;
  extracted_info_count := 0;
  claimed_issues := [];
  mentioned_details := ∅
|}.

Definition f0_8 : float := PyFloat.lit 8 10.
Definition f0_5 : float := PyFloat.lit 5 10.
Definition f0_4 : float := PyFloat.lit 4 10.
Definition f0_3 : float := PyFloat.lit 3 10.
Definition f0_1 : float := PyFloat.lit 1 10.
Definition f0_15 : float := PyFloat.lit 15 100.

Definition update_emotional_state (self : Persona) (scam_intensity : float)
  : Persona :=
  let st :=
    if PyFloat.gt scam_intensity f0_8 then PANICKED
    else if PyFloat.gt scam_intensity f0_5 then ANXIOUS
    else CALM in
  {| traits := traits self;
     emotional_state := st;
     engagement_turn := engagement_turn self;
     extracted_info_count := extracted_info_count self;
     claimed_issues := claimed_issues self;
     mentioned_details := mentioned_details self |}.

Definition get_emotional_modifier (self : Persona) : string :=
  match emotional_state self with
  | CALM => ""
  | ANXIOUS => "I'm getting worried... "
  | PANICKED => "Oh god, please help! "
  | RELIEVED => "Thank goodness... "
  | SUSPICIOUS => "Hmm, "
  end.

(** [base_probability + turn_bonus - extraction_penalty]; the two
    [int * float] products convert the integer first, which raises
    where it is too large for a float. *)
Definition ask_probability (self : Persona) : option float :=
  let base_probability := f0_4 in
  turn ← PyFloat.of_int (engagement_turn self);
  let turn_bonus := PyFloat.min f0_3 (PyFloat.mul turn f0_1) in
  count ← PyFloat.of_int (extracted_info_count self);
  let extraction_penalty := PyFloat.mul count f0_15 in
  Some (PyFloat.sub (PyFloat.add base_probability turn_bonus)
                    extraction_penalty).

(** [random.random() < probability], with [u] the value drawn. *)
Definition should_ask_extraction_question (u : float) (self : Persona)
  : option bool :=
  probability ← ask_probability self;
  Some (PyFloat.lt u probability).

Definition record_extraction (self : Persona) : Persona :=
  {| traits := traits self;
     emotional_state := emotional_state self;
     engagement_turn := engagement_turn self;
     extracted_info_count := extracted_info_count self + 1;
     claimed_issues := claimed_issues self;
     mentioned_details := mentioned_details self |}.

Definition increment_turn (self : Persona) : Persona :=
  {| traits := traits self;
     emotional_state := emotional_state self;
     engagement_turn := engagement_turn self + 1;
     extracted_info_count := extracted_info_count self;
     claimed_issues := claimed_issues self;
     mentioned_details := mentioned_details self |}.

Record PersonaManager := { personas : gmap string Persona }.

(** [PersonaManager.__init__] *)
Definition new_manager : PersonaManager := {| personas := ∅ |}.

(** The persona object is the dictionary's entry: the functions below
    return the manager after the call next to the persona. *)
Definition get_or_create_persona (self : PersonaManager)
    (conversation_id : string) : Persona * PersonaManager :=
  match personas self !! conversation_id with
  | Some persona => (persona, self)
  | None =>
      (new_persona,
       {| personas := <[conversation_id := new_persona]> (personas self) |})
  end.

(** A mutation of the persona object of [conversation_id]. *)
Definition store (self : PersonaManager) (conversation_id : string)
    (persona : Persona) : PersonaManager :=
  {| personas := <[conversation_id := persona]> (personas self) |}.

Definition update_persona (self : PersonaManager) (conversation_id : string)
    (scam_intensity : float) (extracted_something : bool)
  : Persona * PersonaManager :=
  let '(persona, self) := get_or_create_persona self conversation_id in
  let persona := increment_turn persona in
  let persona := update_emotional_state persona scam_intensity in
  let persona :=
    if extracted_something then record_extraction persona else persona in
  (persona, store self conversation_id persona).

(** [self.personas.pop(conversation_id, None)] *)
Definition clear_persona (self : PersonaManager) (conversation_id : string)
  : PersonaManager :=
  {| personas := delete conversation_id (personas self) |}.

(** [EmotionalState.value] *)
Definition EmotionalState_value (e : EmotionalState) : string :=
  match e with
  | CALM => "calm"
  | ANXIOUS => "anxious"
  | PANICKED => "panicked"
  | RELIEVED => "relieved"
  | SUSPICIOUS => "suspicious"
  end.

(** The dictionary [get_persona_context] returns, a field for each of
    its four keys. *)
Record PersonaContext := {
  ctx_emotional_state : string;
  ctx_engagement_turn : Z;
  ctx_emotional_modifier : string;
  ctx_should_extract : bool
}.

(** [get_persona_context], with [u] the value [random.random()] gives:
    the context, or [None] where the probability raises, next to the
    manager, which holds the persona from the first line on. *)
Definition get_persona_context (self : PersonaManager)
    (conversation_id : string) (u : float)
  : option PersonaContext * PersonaManager :=
  let '(persona, self) := get_or_create_persona self conversation_id in
  (should_extract ← should_ask_extraction_question u persona;
   Some {| ctx_emotional_state := EmotionalState_value (emotional_state persona);
           ctx_engagement_turn := engagement_turn persona;
           ctx_emotional_modifier := get_emotional_modifier persona;
           ctx_should_extract := should_extract |},
   self).

End PersonaM.

(** ** [src/agents/prompts.py] *)

Module Prompts.

Definition EXTRACTION_QUESTIONS : list string := [
  "Which account number should I use for the transfer?";
  "What's your UPI ID? I'll send the amount right now.";
  "Can you send me the link again? It's not working on my phone.";
  "What number should I call if I have problems?";
  "Should I share my account details for verification?";
  "Where exactly do I need to click? Can you share the website?"
].

Definition RESPONSE_STRATEGIES : list (string * list string) := [
  ("urgency", [
     "Oh no, this sounds serious! But I'm at work right now, can this wait an hour?";
     "I'm really worried now. What exactly do I need to do? I don't want to make mistakes.";
     "Okay okay, I'll do it. Just tell me step by step please, I'm not good with technology."
   ]);
  ("authority", [
     "Oh, you're from {authority}? I didn't know they contact people this way. How can I verify?";
     "Yes sir/madam, I want to cooperate. What documents do you need from me?";
     "I always follow what the {authority} says. What do I need to do?"
   ]);
  ("financial", [
     "I don't have much money right now. Is there a smaller amount I can pay first?";
     "Which account should I transfer to? I want to make sure it goes to the right place.";
     "I can do UPI. What's your UPI ID? I'll send it right away."
   ]);
  ("threat", [
     "Please don't block my account! I'll do whatever you need. What should I do?";
     "I don't want any legal trouble. How do I fix this problem?";
     "Oh god, please help me. I can't afford to lose my account. What's the process?"
   ])
].

(** [d.get(key)] on a dictionary written as its items, the keys distinct. *)
Fixpoint dict_get {V} (d : list (string * V)) (key : string) : option V :=
  match d with
  | [] => None
  | (k, v) :: rest => if String.eqb k key then Some v else dict_get rest key
  end.

(** [RESPONSE_STRATEGIES.get(scam_category, RESPONSE_STRATEGIES["urgency"])];
    the default is evaluated first and raises [KeyError] where the key
    ["urgency"] is missing. *)
Definition get_response_strategy (scam_category : string)
  : option (list string) :=
  default ← dict_get RESPONSE_STRATEGIES "urgency";
  Some (match dict_get RESPONSE_STRATEGIES scam_category with
        | Some strategies => strategies
        | None => default
        end).

Definition format_scam_indicators (indicators : list string) : string :=
  match indicators with
  | [] => "General suspicious behavior detected"
  | _ => PyStr.join ", " indicators
  end.

End Prompts.

(** ** [src/agents/honeypot_agent.py] *)

Module Agent.

Import PersonaM.

(** What an orchestration call returns. [notes] is left out: it is a
    rendering of the detection result for a human reader and takes no
    part in any decision. *)
Record EngagementResult := {
  response : string;
  duration_seconds : Z;
  conversation_id : string;
  turn_number : Z;
  engagement_mode : Policy.EngagementMode;
  should_continue : bool;
  exit_reason : option string
}.

Record HoneypotAgent := {
  persona_manager : PersonaManager;
  policy : Policy.EngagementPolicy;
  model : string;
  fallback_model : string;
  _last_model_used : option string
}.

(** [HoneypotAgent.__init__], with the two model names of the settings. *)
Definition init (settings : Policy.Settings) (pro_model fallback_pro_model : string)
  : HoneypotAgent := {|
  persona_manager := new_manager;
  policy := Policy.init settings;
  model := pro_model;
  fallback_model := fallback_pro_model;
  _last_model_used := None
|}.

(** One call of [client.models.generate_content] followed by
    [response.text]: it raises, or yields a text that may be missing. *)
Inductive ModelOutcome :=
| Raises
| Returns (text : option string).

(** The random draws of one turn: [random.random()], the index drawn by
    [random.choice(EXTRACTION_QUESTIONS)] and the index drawn by
    [random.choice(fallback_responses)]. *)
Record Draws := {
  draw_unit : float;
  draw_question : nat;
  draw_fallback : nat
}.

Definition fallback_responses : list string := [
  "I'm sorry, I'm a bit confused. Can you explain that again?";
  "My phone is acting up. What do I need to do exactly?";
  "I didn't understand. Can you tell me step by step?";
  "Okay, but what should I do first? I'm worried."
].

Definition _get_fallback_response (r : nat) : option string :=
  PyRandom.choice r fallback_responses.

(** [response_text and len(response_text.strip()) > 0] *)
Definition usable (response_text : option string) : bool :=
  match response_text with
  | None => false
  | Some s =>
      PyStr.truthy s && (0 <? Z.of_nat (String.length (PyStr.strip s)))%Z
  end.

(** The loop over [models_to_try]: the running [response_text] and
    [_last_model_used]. An attempt that raises leaves both as they are
    and goes on; a usable text ends the loop. *)
Fixpoint try_models (attempts : list (string * ModelOutcome))
    (response_text last_model : option string)
  : option string * option string :=
  match attempts with
  | [] => (response_text, last_model)
  | (model_name, Raises) :: rest => try_models rest response_text last_model
  | (model_name, Returns text) :: rest =>
      if usable text then (text, Some model_name)
      else try_models rest text last_model
  end.

(** The attempt does not end the loop: it raises, or its text fails the
    loop's test. *)
Definition unusable (o : ModelOutcome) : bool :=
  match o with
  | Raises => true
  | Returns text => negb (usable text)
  end.

(** [not response_text]: the text is missing or empty. *)
Definition empty_text (response_text : option string) : bool :=
  match response_text with
  | None => true
  | Some s => negb (PyStr.truthy s)
  end.

(** The text the loop over the two models ends with, read off the two
    attempts: the primary model's text where it is usable; otherwise what
    the fallback model returns, usable or not; otherwise, the fallback
    model raising, what the primary model returned, and nothing where it
    raised too. *)
Definition loop_text (primary fallback : ModelOutcome) : option string :=
  match primary with
  | Returns text1 =>
      if usable text1 then text1
      else match fallback with
           | Returns text2 => text2
           | Raises => text1
           end
  | Raises =>
      match fallback with
      | Returns text2 => text2
      | Raises => None
      end
  end.

Definition keywords : list string := ["account"; "upi"; "link"; "number"].

(** [any(q in response_text.lower() for q in [...])] *)
Definition mentions_keyword (response_text : string) : bool :=
  existsb (fun q => PyStr.contains q (PyStr.lower response_text)) keywords.

(** "Add emotional modifier if appropriate" *)
Definition add_modifier (persona : Persona) (response_text : string) : string :=
  if (engagement_turn persona >? 0)%Z then
    let modifier := get_emotional_modifier persona in
    if PyStr.truthy modifier && negb (PyStr.startswith response_text modifier)
    then modifier ++ response_text
    else response_text
  else response_text.

Definition set_last_model (self : HoneypotAgent) (name : option string)
  : HoneypotAgent :=
  {| persona_manager := persona_manager self;
     policy := policy self;
     model := model self;
     fallback_model := fallback_model self;
     _last_model_used := name |}.

(** [_generate_response]: the text, or [None] where the call raises, next
    to the persona and the agent as the call leaves them. *)
Definition _generate_response (self : HoneypotAgent) (persona : Persona)
    (primary fallback : ModelOutcome) (rnd : Draws)
  : option string * Persona * HoneypotAgent :=
  let models_to_try := [(model self, primary); (fallback_model self, fallback)] in
  let '(response_text, last) :=
    try_models models_to_try None (_last_model_used self) in
  let self := set_last_model self last in
  match response_text with
  | None | Some EmptyString =>
      (_get_fallback_response (draw_fallback rnd), persona,
       set_last_model self (Some "fallback"))
  | Some response_text =>
      let response_text := add_modifier persona response_text in
      match should_ask_extraction_question (draw_unit rnd) persona with
      | None => (None, persona, self)
      | Some false => (Some response_text, persona, self)
      | Some true =>
          match PyRandom.choice (draw_question rnd) Prompts.EXTRACTION_QUESTIONS with
          | None => (None, persona, self)
          | Some question =>
              if negb (mentions_keyword response_text) then
                (Some (PyStr.rstrip_dot response_text ++ " " ++ question),
                 record_extraction persona, self)
              else (Some response_text, persona, self)
          end
      end
  end.

(** What [_build_prompt] reads of the API schemas and of the detection
    result, which are declared outside these sources: the text of the
    message, sender and text of a history entry (of the senders the code
    tells [SCAMMER] from every other), description and category of a
    matched pattern. *)
Inductive SenderType := SCAMMER | OTHER_SENDER.

Record Message := { message_text : string }.

Record ConversationMessage := {
  sender : SenderType;
  text : string
}.

Record MatchedPattern := {
  description : string;
  category : string
}.

Record DetectionResult := {
  confidence : float;
  matched_patterns : list MatchedPattern
}.

(** [l[-n:]] and [l[:n]] *)
Definition last_n {A} (n : nat) (l : list A) : list A :=
  skipn (List.length l - n) l.

(** One round of the loop over the history. *)
Definition history_line (history_text : string) (msg : ConversationMessage)
  : string :=
  let sender := match sender msg with SCAMMER => "SCAMMER" | _ => "YOU" end in
  history_text ++ "[" ++ sender ++ "]: " ++ text msg ++ PyStr.nl.

Definition _build_prompt (message : Message)
    (history : list ConversationMessage) (detection : DetectionResult)
    (persona : Persona) : string :=
  let scam_indicators :=
    map description (firstn 5 (matched_patterns detection)) in
  let indicators_text :=
    match scam_indicators with
    | [] => "General suspicious behavior"
    | _ => Prompts.format_scam_indicators scam_indicators
    end in
  let history_text := fold_left history_line (last_n 10 history) "" in
  "CONVERSATION HISTORY:" ++ PyStr.nl
  ++ (if PyStr.truthy history_text then history_text else "No previous messages")
  ++ PyStr.nl ++ PyStr.nl
  ++ "SCAMMER'S NEW MESSAGE:" ++ PyStr.nl
  ++ PyStr.dquote ++ message_text message ++ PyStr.dquote ++ PyStr.nl ++ PyStr.nl
  ++ "YOUR TASK:" ++ PyStr.nl
  ++ "Generate a response as the naive, trusting victim. Your emotional state is: "
  ++ EmotionalState_value (emotional_state persona) ++ PyStr.nl
  ++ "This is turn " ++ Policy.str_of_int (engagement_turn persona)
  ++ " of the conversation." ++ PyStr.nl ++ PyStr.nl
  ++ "Remember:" ++ PyStr.nl
  ++ "- Stay in character as a confused, worried person" ++ PyStr.nl
  ++ "- Ask questions that extract intelligence (bank accounts, UPI IDs, links)"
  ++ PyStr.nl
  ++ "- Keep responses short (1-3 sentences)" ++ PyStr.nl
  ++ "- Show willingness to comply but need guidance" ++ PyStr.nl ++ PyStr.nl
  ++ "DETECTED SCAM INDICATORS: " ++ indicators_text ++ PyStr.nl ++ PyStr.nl
  ++ "Generate your response:".

(** [conversation_id or str(uuid.uuid4())] *)
Definition conv_id_of (conversation_id : option string) (uuid4 : string)
  : string :=
  match conversation_id with
  | Some s => if PyStr.truthy s then s else uuid4
  | None => uuid4
  end.

Definition with_manager (self : HoneypotAgent) (pm : PersonaManager)
  : HoneypotAgent :=
  {| persona_manager := pm;
     policy := policy self;
     model := model self;
     fallback_model := fallback_model self;
     _last_model_used := _last_model_used self |}.

(** [engage]. Of the detection result only [confidence] is read by the
    decisions; the message, the history and the metadata reach the text
    generator alone, whose answers are [primary] and [fallback].
    [uuid4] is the identifier [uuid.uuid4()] would give and [elapsed] is
    [int(time.time() - start_time)]. *)
Definition engage (self : HoneypotAgent) (confidence : float)
    (conversation_id : option string) (uuid4 : string)
    (primary fallback : ModelOutcome) (rnd : Draws) (elapsed : Z)
  : option (EngagementResult * HoneypotAgent) :=
  let conv_id := conv_id_of conversation_id uuid4 in
  let engagement_mode := Policy.get_engagement_mode (policy self) confidence in
  let '(persona, pm) :=
    update_persona (persona_manager self) conv_id confidence false in
  let self := with_manager self pm in
  let '(generated, persona, self) :=
    _generate_response self persona primary fallback rnd in
  let self := with_manager self (store (persona_manager self) conv_id persona) in
  response ←
    match generated with
    | Some text => Some text
    | None => _get_fallback_response (draw_fallback rnd)
    end;
  let duration := elapsed in
  let state := {|
    Policy.mode := engagement_mode;
    Policy.turn_count := engagement_turn persona;
    Policy.duration_seconds := duration;
    Policy.intelligence_complete := false;
    Policy.scammer_suspicious := false;
    Policy.turns_since_new_info := 0
  |} in
  let should_continue := Policy.should_continue (policy self) state in
  let exit_reason :=
    if negb should_continue then Policy.get_exit_reason (policy self) state
    else None in
  Some ({| response := response;
           duration_seconds := duration;
           conversation_id := conv_id;
           turn_number := engagement_turn persona;
           engagement_mode := engagement_mode;
           should_continue := should_continue;
           exit_reason := exit_reason |},
        self).

(** [end_conversation] *)
Definition end_conversation (self : HoneypotAgent) (conversation_id : string)
  : HoneypotAgent :=
  with_manager self (clear_persona (persona_manager self) conversation_id).

(** A conversation: [engage] called once for each turn, in order, with
    the same conversation id. *)
Record Turn := {
  turn_confidence : float;
  turn_primary : ModelOutcome;
  turn_fallback : ModelOutcome;
  turn_draws : Draws;
  turn_elapsed : Z
}.

Fixpoint engage_all (self : HoneypotAgent) (conversation_id uuid4 : string)
    (turns : list Turn) : option (list EngagementResult * HoneypotAgent) :=
  match turns with
  | [] => Some ([], self)
  | t :: rest =>
      '(result, self) ←
        engage self (turn_confidence t) (Some conversation_id) uuid4
          (turn_primary t) (turn_fallback t) (turn_draws t) (turn_elapsed t);
      '(results, self) ← engage_all self conversation_id uuid4 rest;
      Some (result :: results, self)
  end.

End Agent.

(** ** The specification's vocabulary *)

Module Spec.

Import Policy.

(** none < cautious < aggressive *)
Definition mode_rank (m : EngagementMode) : Z :=
  match m with NONE => 0 | CAUTIOUS => 1 | AGGRESSIVE => 2 end.

Definition mode_le (a b : EngagementMode) : Prop :=
  mode_rank a <= mode_rank b.

(** The turn limit of a mode. *)
Definition max_turns_of (self : EngagementPolicy) (m : EngagementMode) : Z :=
  match m with
  | AGGRESSIVE => max_turns_aggressive self
  | CAUTIOUS | NONE => max_turns_cautious self
  end.

(** The five stop conditions, in the priority order of the exit reason,
    each with its reason. *)
Definition stop_rules (self : EngagementPolicy) (state : EngagementState)
  : list (bool * string) :=
  let limit := max_turns_of self (mode state) in
  [ (turn_count state >=? limit,
     "Max turns reached (" ++ str_of_int limit ++ ")");
    (Policy.duration_seconds state >=? max_duration_seconds self,
     "Max duration exceeded (" ++ str_of_int (max_duration_seconds self) ++ "s)");
    (intelligence_complete state, "Intelligence extraction complete");
    (scammer_suspicious state, "Scammer became suspicious");
    (turns_since_new_info state >=? stale_turn_threshold self,
     "No new information in " ++ str_of_int (stale_turn_threshold self)
       ++ " turns") ].

(** The reason of the first rule whose condition holds. *)
Fixpoint first_matching (rules : list (bool * string)) : option string :=
  match rules with
  | [] => None
  | (holds, reason) :: rest =>
      if holds then Some reason else first_matching rest
  end.

(** [clamp(x, 0, 1)] *)
Definition clamp01 (x : float) : float :=
  if PyFloat.lt x PyFloat.zero then PyFloat.zero
  else if PyFloat.gt x PyFloat.one then PyFloat.one
  else x.

(** [clamp(0.4 + min(0.3, turn*0.1) - extractedCount*0.15, 0, 1)] *)
Definition ask_probability (turn extracted_count : Z) : option float :=
  t ← PyFloat.of_int turn;
  c ← PyFloat.of_int extracted_count;
  Some (clamp01
          (PyFloat.sub
             (PyFloat.add PersonaM.f0_4
                (PyFloat.min PersonaM.f0_3 (PyFloat.mul t PersonaM.f0_1)))
             (PyFloat.mul c PersonaM.f0_15))).

(** The emotional state the thresholds give to an intensity. *)
Definition emotion_of (scam_intensity : float) : PersonaM.EmotionalState :=
  if PyFloat.gt scam_intensity PersonaM.f0_8 then PersonaM.PANICKED
  else if PyFloat.gt scam_intensity PersonaM.f0_5 then PersonaM.ANXIOUS
  else PersonaM.CALM.

End Spec.

(** ** Sample values *)

Module Sample.

Definition agent : Agent.HoneypotAgent :=
  Agent.init Policy.documented_settings "gemini-3-pro-preview" "gemini-2.5-pro".

Definition draws : Agent.Draws := {|
  Agent.draw_unit := PyFloat.lit 1 10;
  Agent.draw_question := 2;
  Agent.draw_fallback := 1
|}.

(** Draws with which no extraction question is asked on a first turn. *)
Definition quiet_draws : Agent.Draws := {|
  Agent.draw_unit := PyFloat.lit 9 10;
  Agent.draw_question := 0;
  Agent.draw_fallback := 0
|}.

(** A manager that holds a panicked persona at turn 2 for ["c1"]. *)
Definition manager_with_c1 : PersonaM.PersonaManager :=
  (PersonaM.update_persona
     (PersonaM.update_persona PersonaM.new_manager "c1" (PyFloat.lit 9 10) false).2
     "c1" (PyFloat.lit 9 10) true).2.

(** A state at the aggressive turn limit with a suspicious scammer. *)
Definition state_at_limit : Policy.EngagementState := {|
  Policy.mode := Policy.AGGRESSIVE;
  Policy.turn_count := 25;
  Policy.duration_seconds := 30;
  Policy.intelligence_complete := false;
  Policy.scammer_suspicious := true;
  Policy.turns_since_new_info := 0
|}.

(** The same state one turn and ten seconds later. *)
Definition state_later : Policy.EngagementState := {|
  Policy.mode := Policy.AGGRESSIVE;
  Policy.turn_count := 26;
  Policy.duration_seconds := 40;
  Policy.intelligence_complete := false;
  Policy.scammer_suspicious := true;
  Policy.turns_since_new_info := 1
|}.

(** Three turns of a conversation: the models fail, the primary model
    answers, the fallback model answers. *)
Definition turns : list Agent.Turn := [
  {| Agent.turn_confidence := PyFloat.lit 9 10;
     Agent.turn_primary := Agent.Raises;
     Agent.turn_fallback := Agent.Returns None;
     Agent.turn_draws := draws;
     Agent.turn_elapsed := 1 |};
  {| Agent.turn_confidence := PyFloat.lit 7 10;
     Agent.turn_primary := Agent.Returns (Some "Okay sir. What to do..");
     Agent.turn_fallback := Agent.Raises;
     Agent.turn_draws := draws;
     Agent.turn_elapsed := 2 |};
  {| Agent.turn_confidence := PyFloat.lit 3 10;
     Agent.turn_primary := Agent.Returns (Some "  ");
     Agent.turn_fallback := Agent.Returns (Some "Which UPI?");
     Agent.turn_draws := draws;
     Agent.turn_elapsed := 3 |}
].

(** An agent whose limits are 2 and 3 turns. *)
Definition short_agent : Agent.HoneypotAgent :=
  Agent.init
    {| Policy.cautious_confidence_threshold := PyFloat.lit 60 100;
       Policy.aggressive_confidence_threshold := PyFloat.lit 85 100;
       Policy.max_engagement_turns_cautious := 2;
       Policy.max_engagement_turns_aggressive := 3;
       Policy.max_engagement_duration_seconds := 600 |}
    "gemini-3-pro-preview" "gemini-2.5-pro".

(** A calm persona at turn 0 that differs from the default one in the
    other fields. *)
Definition manager_persona : PersonaM.Persona := {|
  PersonaM.traits := [PersonaM.CONFUSED];
  PersonaM.emotional_state := PersonaM.CALM;
  PersonaM.engagement_turn := 0;
  PersonaM.extracted_info_count := 4;
  PersonaM.claimed_issues := ["lost card"];
  PersonaM.mentioned_details := ∅
|}.

Definition scammer_says (s : string) : Agent.ConversationMessage :=
  {| Agent.sender := Agent.SCAMMER; Agent.text := s |}.

Definition pattern (s : string) : Agent.MatchedPattern :=
  {| Agent.description := s; Agent.category := "urgency" |}.

End Sample.

(** ** Runs of several calls *)

Module Runs.

Import PersonaM.

(** [update_persona] called for each step in order, on one conversation;
    a step is the intensity and the extraction flag. *)
Definition update_all (pm : PersonaManager) (id : string)
    (steps : list (float * bool)) : PersonaManager :=
  fold_left (fun pm step => (update_persona pm id step.1 step.2).2) steps pm.

(** The number of steps whose flag is set. *)
Definition extractions (steps : list (float * bool)) : Z :=
  Z.of_nat (List.length (filter (fun step : float * bool => step.2 = true) steps)).



End Runs.

(** * Properties *)

(** ** Evaluations *)

Section Evaluations.

Import PersonaM Agent.

(** The literals are the doubles Python prints as [float.hex]:
    [0.1 = 0x1.999999999999ap-4], [0.15 = 0x1.3333333333333p-3],
    [0.8 = 0x1.999999999999ap-1]. *)
Example lit_0_1 : PyFloat.lit 1 10 = S754_finite false 0x1999999999999a (-56).
Proof. vm_compute. reflexivity. Qed.

Example lit_0_15 : PyFloat.lit 15 100 = S754_finite false 0x13333333333333 (-55).
Proof. vm_compute. reflexivity. Qed.

Example lit_0_8 : PyFloat.lit 8 10 = S754_finite false 0x1999999999999a (-53).
Proof. vm_compute. reflexivity. Qed.

(** [0.4 + 0.3 == 0.7], and [3 * 0.15] is [0.44999999999999996]. *)
Example add_0_4_0_3 :
  PyFloat.add (PyFloat.lit 4 10) (PyFloat.lit 3 10) = PyFloat.lit 7 10.
Proof. vm_compute. reflexivity. Qed.

Example mul_3_0_15 :
  PyFloat.mul (PyFloat.of_Z 3) (PyFloat.lit 15 100)
  = S754_finite false 0x1ccccccccccccc (-54).
Proof. vm_compute. reflexivity. Qed.

Example of_int_too_large : PyFloat.of_int (2 ^ 1024) = None.
Proof. vm_compute. reflexivity. Qed.

Example str_of_int_600 : Policy.str_of_int 600 = "600".
Proof. reflexivity. Qed.

Example strip_blanks : PyStr.strip "  a b  " = "a b".
Proof. reflexivity. Qed.

Example rstrip_dots : PyStr.rstrip_dot "a.b..." = "a.b".
Proof. reflexivity. Qed.

Example mentions_upi : mentions_keyword "Give me your UPI." = true.
Proof. reflexivity. Qed.

(** Two updates at 0.9 and one at 0.3: turn 3, calm. *)
Example three_updates :
  let pm1 := (update_persona new_manager "c1" (PyFloat.lit 9 10) false).2 in
  let pm2 := (update_persona pm1 "c1" (PyFloat.lit 9 10) false).2 in
  let p2 := (update_persona pm1 "c1" (PyFloat.lit 9 10) false).1 in
  let p3 := (update_persona pm2 "c1" (PyFloat.lit 3 10) false).1 in
  (engagement_turn p2, emotional_state p2) = (2, PANICKED)
  /\ (engagement_turn p3, emotional_state p3) = (3, CALM).
Proof. vm_compute. split; reflexivity. Qed.

(** A first turn at confidence 0.9 where the primary model answers: the
    modifier is prepended, the periods at the end are stripped and the
    drawn question is appended. *)
Example engage_first_turn :
  fst <$> engage Sample.agent (PyFloat.lit 9 10) None "uuid-1"
            (Returns (Some "Okay sir. What to do..")) Raises Sample.draws 0
  = Some {| response := "Oh god, please help! Okay sir. What to do Can you send me the link again? It's not working on my phone.";
            duration_seconds := 0;
            conversation_id := "uuid-1";
            turn_number := 1;
            engagement_mode := Policy.AGGRESSIVE;
            should_continue := true;
            exit_reason := None |}.
Proof. vm_compute. reflexivity. Qed.

(** A text of blanks is not usable in the loop, yet it is not empty for
    the test after the loop: it is post-processed like any text. *)
Example engage_blank_text :
  response <$> (fst <$> engage Sample.agent (PyFloat.lit 3 10) None "uuid-1"
                          (Returns (Some "  ")) (Returns (Some "  "))
                          {| draw_unit := PyFloat.lit 9 10;
                             draw_question := 0; draw_fallback := 0 |} 0)
  = Some "  ".
Proof. vm_compute. reflexivity. Qed.

(** At the cautious limit of 10 turns the engagement stops. *)
Example exit_at_cautious_limit :
  let self := Policy.init Policy.documented_settings in
  let state := {| Policy.mode := Policy.CAUTIOUS;
                  Policy.turn_count := 10;
                  Policy.duration_seconds := 0;
                  Policy.intelligence_complete := false;
                  Policy.scammer_suspicious := false;
                  Policy.turns_since_new_info := 0 |} in
  Policy.should_continue self state = false
  /\ Policy.get_exit_reason self state = Some "Max turns reached (10)".
Proof. split; reflexivity. Qed.

End Evaluations.

(** ** The order of the floats *)

Section FloatOrder.

Import PyFloat.

Lemma float_compare_key (x y : float) :
  SFcompare x y =
    match key x, key y with
    | Some a, Some b =>
        Some (if decide (key_lt a b) then Lt
              else if decide (a = b) then Eq else Gt)
    | _, _ => None
    end.
Proof.
  destruct x as [sx|sx| |sx mx ex], y as [sy|sy| |sy my ey];
    try destruct sx; try destruct sy; cbn [SFcompare key]; try reflexivity;
    unfold key_lt;
    repeat case_decide; try reflexivity; try (exfalso; lia);
    try (exfalso; congruence).
  all: fold (Pos.compare mx my) in *.
  all: destruct (Z.compare_spec ex ey) as [He|He|He];
    destruct (Pos.compare_spec mx my) as [Hm|Hm|Hm]; cbn [CompOpp];
    try reflexivity; subst; try (exfalso; lia); try (exfalso; congruence);
    exfalso; simplify_eq; lia.
Qed.

Lemma float_lt_key (x y : float) :
  lt x y = true <->
  exists a b, key x = Some a /\ key y = Some b /\ key_lt a b.
Proof.
  unfold lt, SFltb. rewrite float_compare_key.
  destruct (key x) as [a|], (key y) as [b|];
    try (split; [discriminate | intros (? & ? & ? & ? & ?); discriminate]).
  repeat case_decide; split; try discriminate; try reflexivity;
    try (intros (? & ? & ? & ? & ?); simplify_eq; tauto);
    intros _; eauto.
Qed.

Lemma float_le_key (x y : float) :
  le x y = true <->
  exists a b, key x = Some a /\ key y = Some b /\ (key_lt a b \/ a = b).
Proof.
  unfold le, SFleb. rewrite float_compare_key.
  destruct (key x) as [a|], (key y) as [b|];
    try (split; [discriminate | intros (? & ? & ? & ? & ?); discriminate]).
  repeat case_decide; split; try discriminate; try reflexivity;
    try (intros (? & ? & ? & ? & [?|?]); simplify_eq; tauto);
    intros _; eauto 6.
Qed.

Lemma key_lt_trans a b c : key_lt a b -> key_lt b c -> key_lt a c.
Proof.
  destruct a as [[? ?] ?], b as [[? ?] ?], c as [[? ?] ?].
  unfold key_lt. lia.
Qed.

Lemma key_lt_irrefl a : ~ key_lt a a.
Proof. destruct a as [[? ?] ?]. unfold key_lt. lia. Qed.

Lemma float_le_trans (x y z : float) :
  le x y = true -> le y z = true -> le x z = true.
Proof.
  rewrite !float_le_key.
  intros (a & b & Ha & Hb & Hab) (b' & c & Hb' & Hc & Hbc).
  simplify_eq. exists a, c. repeat split; try assumption.
  destruct Hab as [Hab| ->], Hbc as [Hbc| ->]; eauto using key_lt_trans.
Qed.

Lemma float_lt_trans (x y z : float) :
  lt x y = true -> lt y z = true -> lt x z = true.
Proof.
  rewrite !float_lt_key.
  intros (a & b & Ha & Hb & Hab) (b' & c & Hb' & Hc & Hbc).
  simplify_eq. exists a, c. eauto using key_lt_trans.
Qed.

Lemma float_le_lt_trans (x y z : float) :
  le x y = true -> lt y z = true -> lt x z = true.
Proof.
  rewrite float_le_key, !float_lt_key.
  intros (a & b & Ha & Hb & Hab) (b' & c & Hb' & Hc & Hbc).
  simplify_eq. exists a, c. repeat split; try assumption.
  destruct Hab as [Hab| ->]; eauto using key_lt_trans.
Qed.

Lemma float_lt_irrefl (x : float) : lt x x = false.
Proof.
  destruct (lt x x) eqn:E; [|reflexivity].
  apply float_lt_key in E as (a & b & Ha & Hb & Hab). simplify_eq.
  exfalso. eapply key_lt_irrefl, Hab.
Qed.

Lemma float_le_refl (x : float) : is_nan x = false -> le x x = true.
Proof.
  intros Hx. apply float_le_key.
  destruct x as [s|s| |s m e]; try discriminate; cbn [key];
    try destruct s; eauto 10.
Qed.

Lemma float_lt_not_nan_l (x y : float) : lt x y = true -> is_nan x = false.
Proof.
  intros (a & b & Ha & _)%float_lt_key. destruct x; try reflexivity; discriminate.
Qed.

Lemma float_lt_not_le (x y : float) : lt x y = true -> le y x = false.
Proof.
  intros Hlt. destruct (le y x) eqn:Hle; [|reflexivity].
  rewrite <- (float_lt_irrefl y). symmetry.
  eapply float_le_lt_trans; [exact Hle|exact Hlt].
Qed.

End FloatOrder.

(** ** Engagement policy *)

Section PolicyProperties.

Import Policy.

Variable self : EngagementPolicy.

Lemma max_turns_spec (state : EngagementState) :
  max_turns self state = Spec.max_turns_of self (mode state).
Proof. unfold max_turns. destruct (mode state); reflexivity. Qed.

Ltac case_geb :=
  match goal with
  | |- context [ (?a >=? ?b) ] =>
      rewrite (Z.geb_leb a b); destruct (Z.leb_spec b a)
  end.

(** C1. [should_continue] is false exactly when one of the five stop
    conditions holds, the turn limit being the aggressive one in
    aggressive mode and the cautious one in the two other modes. *)
Theorem should_continue_false_iff_stop (state : EngagementState) :
  (should_continue self state = false <->
     turn_count state >= Spec.max_turns_of self (mode state)
     \/ duration_seconds state >= max_duration_seconds self
     \/ intelligence_complete state = true
     \/ scammer_suspicious state = true
     \/ turns_since_new_info state >= stale_turn_threshold self)
  /\ Spec.max_turns_of self AGGRESSIVE = max_turns_aggressive self
  /\ Spec.max_turns_of self CAUTIOUS = max_turns_cautious self
  /\ Spec.max_turns_of self NONE = max_turns_cautious self.
Proof.
  split; [|repeat split].
  unfold should_continue. rewrite max_turns_spec.
  repeat case_geb;
    destruct (intelligence_complete state), (scammer_suspicious state);
    split; intros; try reflexivity; try discriminate;
    try (left; lia); try (right; left; lia); try tauto;
    try (do 4 right; lia);
    intuition (try discriminate; try lia).
Qed.

Lemma get_exit_reason_first_matching (state : EngagementState) :
  get_exit_reason self state = Spec.first_matching (Spec.stop_rules self state).
Proof.
  unfold get_exit_reason, Spec.stop_rules. rewrite max_turns_spec.
  cbn [Spec.first_matching]. reflexivity.
Qed.

Lemma get_exit_reason_none_iff (state : EngagementState) :
  get_exit_reason self state = None <-> should_continue self state = true.
Proof.
  unfold get_exit_reason, should_continue.
  repeat match goal with
         | |- context [ if ?c then _ else _ ] => destruct c
         end; split; intros; try reflexivity; discriminate.
Qed.

(** C3. The engagement mode does not decrease when the confidence grows,
    and a confidence equal to a threshold is in the higher tier: the
    cautious threshold gives the cautious mode when it is below the
    aggressive one, and the aggressive threshold, a number, gives the
    aggressive mode. *)
Theorem engagement_mode_monotone_inclusive (c1 c2 : float) :
  (PyFloat.le c1 c2 = true ->
   Spec.mode_le (get_engagement_mode self c1) (get_engagement_mode self c2))
  /\ (PyFloat.lt (cautious_threshold self) (aggressive_threshold self) = true ->
      get_engagement_mode self (cautious_threshold self) = CAUTIOUS)
  /\ (PyFloat.is_nan (aggressive_threshold self) = false ->
      get_engagement_mode self (aggressive_threshold self) = AGGRESSIVE).
Proof.
  unfold get_engagement_mode.
  assert (Hge : forall a b, PyFloat.ge a b = PyFloat.le b a) by reflexivity.
  rewrite !Hge. clear Hge. repeat split.
  - intros Hle.
    destruct (PyFloat.le (aggressive_threshold self) c1) eqn:Ha1.
    + rewrite (float_le_trans _ _ _ Ha1 Hle). unfold Spec.mode_le. simpl. lia.
    + destruct (PyFloat.le (cautious_threshold self) c1) eqn:Hc1.
      * rewrite (float_le_trans _ _ _ Hc1 Hle).
        destruct (PyFloat.le (aggressive_threshold self) c2);
          unfold Spec.mode_le; simpl; lia.
      * destruct (PyFloat.le (aggressive_threshold self) c2),
          (PyFloat.le (cautious_threshold self) c2);
          unfold Spec.mode_le; simpl; lia.
  - intros Hlt. rewrite (float_lt_not_le _ _ Hlt).
    rewrite float_le_refl; [reflexivity|]. eapply float_lt_not_nan_l, Hlt.
  - intros Hnan. rewrite float_le_refl; [reflexivity|exact Hnan].
Qed.

End PolicyProperties.

(** The documented thresholds 0.60 and 0.85, with the confidences 0.7 and
    0.9. *)
Lemma engagement_mode_monotone_inclusive_documented :
  let self := Policy.init Policy.documented_settings in
  (PyFloat.le (PyFloat.lit 7 10) (PyFloat.lit 9 10) = true
   /\ PyFloat.lt (Policy.cautious_threshold self)
                 (Policy.aggressive_threshold self) = true
   /\ PyFloat.is_nan (Policy.aggressive_threshold self) = false)
  /\ Spec.mode_le (Policy.get_engagement_mode self (PyFloat.lit 7 10))
                  (Policy.get_engagement_mode self (PyFloat.lit 9 10))
  /\ Policy.get_engagement_mode self (Policy.cautious_threshold self)
     = Policy.CAUTIOUS
  /\ Policy.get_engagement_mode self (Policy.aggressive_threshold self)
     = Policy.AGGRESSIVE.
Proof.
  intros self.
  assert (H1 : PyFloat.le (PyFloat.lit 7 10) (PyFloat.lit 9 10) = true)
    by (vm_compute; reflexivity).
  assert (H2 : PyFloat.lt (Policy.cautious_threshold self)
                          (Policy.aggressive_threshold self) = true)
    by (vm_compute; reflexivity).
  assert (H3 : PyFloat.is_nan (Policy.aggressive_threshold self) = false)
    by (vm_compute; reflexivity).
  destruct (engagement_mode_monotone_inclusive self
              (PyFloat.lit 7 10) (PyFloat.lit 9 10)) as (Hmono & Hcaut & Hagg).
  split; [auto|]. auto.
Defined.

(** ** Persona store *)

Section PersonaProperties.

Import PersonaM.

Lemma get_or_create_persona_lookup (pm : PersonaManager) (id : string) :
  let persona := (get_or_create_persona pm id).1 in
  let pm' := (get_or_create_persona pm id).2 in
  persona = default new_persona (personas pm !! id)
  /\ personas pm' !! id = Some persona
  /\ forall other, other <> id -> personas pm' !! other = personas pm !! other.
Proof.
  unfold get_or_create_persona.
  destruct (personas pm !! id) as [q|] eqn:Hq; cbn.
  - auto.
  - repeat split; [apply lookup_insert_eq|].
    intros other Hne. apply lookup_insert_ne. congruence.
Qed.

Lemma update_persona_unfold (pm : PersonaManager) (id : string)
    (x : float) (ext : bool) :
  let before := default new_persona (personas pm !! id) in
  let turned := update_emotional_state (increment_turn before) x in
  let after := if ext then record_extraction turned else turned in
  (update_persona pm id x ext).1 = after
  /\ personas (update_persona pm id x ext).2 = <[id := after]> (personas pm).
Proof.
  unfold update_persona, get_or_create_persona, store.
  destruct (personas pm !! id) as [q|] eqn:Hq; cbn; split; try reflexivity.
  apply insert_insert_eq.
Qed.

Lemma emotion_of_clamp01 (x : float) :
  Spec.emotion_of (Spec.clamp01 x) = Spec.emotion_of x.
Proof.
  unfold Spec.clamp01.
  destruct (PyFloat.lt x PyFloat.zero) eqn:Hneg.
  - unfold Spec.emotion_of at 2. unfold PyFloat.gt.
    assert (H8 : SFltb f0_8 x = false).
    { destruct (SFltb f0_8 x) eqn:E; [|reflexivity].
      pose proof (float_lt_trans _ _ _ E Hneg) as Habs.
      vm_compute in Habs. discriminate. }
    assert (H5 : SFltb f0_5 x = false).
    { destruct (SFltb f0_5 x) eqn:E; [|reflexivity].
      pose proof (float_lt_trans _ _ _ E Hneg) as Habs.
      vm_compute in Habs. discriminate. }
    rewrite H8, H5. vm_compute. reflexivity.
  - destruct (PyFloat.gt x PyFloat.one) eqn:Hbig; [|reflexivity].
    unfold Spec.emotion_of at 2. unfold PyFloat.gt in *.
    assert (H8 : SFltb f0_8 x = true).
    { eapply float_lt_trans; [|exact Hbig]. vm_compute. reflexivity. }
    rewrite H8. vm_compute. reflexivity.
Qed.

Lemma update_persona_turn_emotion (pm : PersonaManager) (id : string)
    (x : float) (ext : bool) :
  let before := default new_persona (personas pm !! id) in
  let after := (update_persona pm id x ext).1 in
  engagement_turn after = engagement_turn before + 1
  /\ emotional_state after = Spec.emotion_of x.
Proof.
  destruct (update_persona_unfold pm id x ext) as [Hfst _].
  cbv zeta in *. rewrite Hfst. destruct ext; split; reflexivity.
Qed.

(** C4. [update_persona] on any conversation and any intensity adds one to
    the turn, sets the emotional state by the two thresholds (so never to
    suspicious or relieved), adds one to the extraction count exactly when
    asked to, and leaves the result in the store; an intensity outside
    [0,1], infinite or not a number raises nothing and has the effect of
    its clamped value. *)
Theorem update_persona_effect (pm : PersonaManager) (id : string)
    (scam_intensity : float) (extracted_something : bool) :
  let before := default new_persona (personas pm !! id) in
  let after := (update_persona pm id scam_intensity extracted_something).1 in
  let pm' := (update_persona pm id scam_intensity extracted_something).2 in
  personas pm' !! id = Some after
  /\ engagement_turn after = engagement_turn before + 1
  /\ emotional_state after =
       (if PyFloat.gt scam_intensity (PyFloat.lit 8 10) then PANICKED
        else if PyFloat.gt scam_intensity (PyFloat.lit 5 10) then ANXIOUS
        else CALM)
  /\ emotional_state after <> SUSPICIOUS
  /\ emotional_state after <> RELIEVED
  /\ extracted_info_count after =
       extracted_info_count before + (if extracted_something then 1 else 0)
  /\ update_persona pm id (Spec.clamp01 scam_intensity) extracted_something
     = update_persona pm id scam_intensity extracted_something.
Proof.
  destruct (update_persona_unfold pm id scam_intensity extracted_something)
    as [Hfst Hsnd].
  cbv zeta in *. rewrite Hfst, Hsnd.
  split; [apply lookup_insert_eq|].
  split; [destruct extracted_something; reflexivity|].
  split; [destruct extracted_something; reflexivity|].
  split.
  { destruct extracted_something; cbn;
      repeat match goal with |- context [ if ?c then _ else _ ] => destruct c end;
      discriminate. }
  split.
  { destruct extracted_something; cbn;
      repeat match goal with |- context [ if ?c then _ else _ ] => destruct c end;
      discriminate. }
  split; [destruct extracted_something; cbn; lia|].
  destruct (update_persona_unfold pm id (Spec.clamp01 scam_intensity)
              extracted_something) as [Hfst' Hsnd'].
  cbv zeta in *.
  assert (Hsame : update_emotional_state
                    (increment_turn (default new_persona (personas pm !! id)))
                    (Spec.clamp01 scam_intensity)
                  = update_emotional_state
                      (increment_turn (default new_persona (personas pm !! id)))
                      scam_intensity).
  { unfold update_emotional_state.
    pose proof (emotion_of_clamp01 scam_intensity) as He.
    unfold Spec.emotion_of in He. rewrite He. reflexivity. }
  rewrite Hsame in Hfst', Hsnd'.
  destruct (update_persona pm id (Spec.clamp01 scam_intensity) extracted_something)
    as [p1 [m1]], (update_persona pm id scam_intensity extracted_something)
    as [p2 [m2]]; cbn in *. congruence.
Qed.

Lemma lt_clamp01 (u p : float) :
  PyRandom.unit_draw u -> PyFloat.lt u (Spec.clamp01 p) = PyFloat.lt u p.
Proof.
  intros [Hlo Hhi]. unfold Spec.clamp01.
  assert (Hu0 : PyFloat.lt u PyFloat.zero = false).
  { destruct (PyFloat.lt u PyFloat.zero) eqn:E; [|reflexivity].
    rewrite (float_lt_not_le _ _ E) in Hlo. discriminate. }
  destruct (PyFloat.lt p PyFloat.zero) eqn:Hneg.
  - rewrite Hu0. symmetry.
    destruct (PyFloat.lt u p) eqn:E; [|reflexivity].
    rewrite <- Hu0. symmetry. eapply float_lt_trans; eassumption.
  - destruct (PyFloat.gt p PyFloat.one) eqn:Hbig; [|reflexivity].
    rewrite Hhi. symmetry. eapply float_lt_trans; eassumption.
Qed.

(** C5. Whether the extraction question is asked is decided by comparing
    the draw of [random.random()], uniform on [0,1), with a number that
    depends on the turn and the extraction count alone; for every such
    draw the decision is the one the clamped formula gives, so its
    probability is [clamp(0.4 + min(0.3, turn*0.1) - count*0.15, 0, 1)].
    That number is the float 0.4 at turn 0 and count 0, the float 0.7 at
    turn 10 and count 0, and 0 at turn 0 and count 3, where the question
    is never asked. *)
Theorem ask_probability_clamped_formula (persona : Persona) (u : float)
    (Hu : PyRandom.unit_draw u) :
  should_ask_extraction_question u persona
    = PyFloat.lt u <$> Spec.ask_probability (engagement_turn persona)
                                            (extracted_info_count persona)
  /\ (forall other : Persona,
        engagement_turn other = engagement_turn persona ->
        extracted_info_count other = extracted_info_count persona ->
        should_ask_extraction_question u other
        = should_ask_extraction_question u persona)
  /\ Spec.ask_probability 0 0 = Some (PyFloat.lit 4 10)
  /\ Spec.ask_probability 10 0 = Some (PyFloat.lit 7 10)
  /\ Spec.ask_probability 0 3 = Some PyFloat.zero
  /\ (engagement_turn persona = 0 -> extracted_info_count persona = 3 ->
      should_ask_extraction_question u persona = Some false).
Proof.
  assert (Heq : forall q : Persona,
             should_ask_extraction_question u q
             = PyFloat.lt u <$> Spec.ask_probability (engagement_turn q)
                                                     (extracted_info_count q)).
  { intros q.
    unfold should_ask_extraction_question, ask_probability, Spec.ask_probability.
    destruct (PyFloat.of_int (engagement_turn q)) as [t|]; [|reflexivity].
    destruct (PyFloat.of_int (extracted_info_count q)) as [c|]; [|reflexivity].
    cbn. rewrite (lt_clamp01 _ _ Hu). reflexivity. }
  split; [apply Heq|].
  split; [intros other Ht Hc; rewrite !Heq, Ht, Hc; reflexivity|].
  split; [vm_compute; reflexivity|].
  split; [vm_compute; reflexivity|].
  split; [vm_compute; reflexivity|].
  intros Ht Hc. rewrite Heq, Ht, Hc.
  replace (Spec.ask_probability 0 3) with (Some PyFloat.zero)
    by (vm_compute; reflexivity).
  cbn. f_equal.
  destruct (PyFloat.lt u PyFloat.zero) eqn:E; [|reflexivity].
  destruct Hu as [Hlo _]. rewrite (float_lt_not_le _ _ E) in Hlo. discriminate.
Qed.

(** C9. [clear_persona] removes the persona of the conversation and no
    other, changes nothing (and raises nothing) when there is none, and a
    [get_or_create_persona] after it yields the default persona: the three
    default traits, calm, turn 0, no extraction, no claimed issue and no
    mentioned detail. *)
Theorem clear_persona_then_default (pm : PersonaManager) (id : string) :
  let cleared := clear_persona pm id in
  personas cleared !! id = None
  /\ (forall other, other <> id ->
        personas cleared !! other = personas pm !! other)
  /\ (personas pm !! id = None -> cleared = pm)
  /\ (get_or_create_persona cleared id).1 =
       {| traits := [TRUSTING; WORRIED; TECH_NAIVE];
          emotional_state := CALM;
          engagement_turn := 0;
          extracted_info_count := 0;
          claimed_issues := [];
          mentioned_details := ∅ |}
  /\ personas (get_or_create_persona cleared id).2 !! id
     = Some (get_or_create_persona cleared id).1.
Proof.
  cbv zeta. unfold clear_persona.
  split; [apply lookup_delete_eq|].
  split; [intros other Hne; apply lookup_delete_ne; congruence|].
  split.
  { intros Hnone. destruct pm as [m]. cbn in *. f_equal. apply delete_id, Hnone. }
  unfold get_or_create_persona. cbn [personas].
  rewrite lookup_delete_eq. cbn. split; [reflexivity|apply lookup_insert_eq].
Qed.

(** C10. [update_persona] leaves the traits, the claimed issues and the
    mentioned details of the persona as they were (as [Persona()] makes
    them where the persona is new) and leaves every other conversation's
    persona alone; [get_or_create_persona] on a conversation that has a
    persona returns it and changes nothing. *)
Theorem update_persona_frame (pm : PersonaManager) (id : string)
    (scam_intensity : float) (extracted_something : bool) :
  let before := default new_persona (personas pm !! id) in
  let after := (update_persona pm id scam_intensity extracted_something).1 in
  let pm' := (update_persona pm id scam_intensity extracted_something).2 in
  traits after = traits before
  /\ claimed_issues after = claimed_issues before
  /\ mentioned_details after = mentioned_details before
  /\ (forall other, other <> id ->
        personas pm' !! other = personas pm !! other)
  /\ (forall persona, personas pm !! id = Some persona ->
        get_or_create_persona pm id = (persona, pm)).
Proof.
  destruct (update_persona_unfold pm id scam_intensity extracted_something)
    as [Hfst Hsnd].
  cbv zeta in *. rewrite Hfst, Hsnd.
  split; [destruct extracted_something; reflexivity|].
  split; [destruct extracted_something; reflexivity|].
  split; [destruct extracted_something; reflexivity|].
  split; [intros other Hne; apply lookup_insert_ne; congruence|].
  intros persona Hp. unfold get_or_create_persona. rewrite Hp. reflexivity.
Qed.

End PersonaProperties.

Lemma clear_persona_then_default_absent :
  PersonaM.personas PersonaM.new_manager !! "c1" = None
  /\ PersonaM.clear_persona PersonaM.new_manager "c1" = PersonaM.new_manager.
Proof.
  assert (H : PersonaM.personas PersonaM.new_manager !! "c1" = None)
    by reflexivity.
  split; [exact H|].
  destruct (clear_persona_then_default PersonaM.new_manager "c1")
    as (_ & _ & Hid & _).
  exact (Hid H).
Defined.

Lemma update_persona_frame_existing :
  let persona := (PersonaM.get_or_create_persona Sample.manager_with_c1 "c1").1 in
  PersonaM.personas Sample.manager_with_c1 !! "c1" = Some persona
  /\ PersonaM.get_or_create_persona Sample.manager_with_c1 "c1"
     = (persona, Sample.manager_with_c1).
Proof.
  intros persona.
  assert (H : PersonaM.personas Sample.manager_with_c1 !! "c1" = Some persona)
    by (vm_compute; reflexivity).
  split; [exact H|].
  destruct (update_persona_frame Sample.manager_with_c1 "c1" PyFloat.zero false)
    as (_ & _ & _ & _ & Hget).
  exact (Hget persona H).
Defined.

(** The draw 0.5 and a fresh persona: the question is asked when the draw
    is below 0.4. *)
Lemma ask_probability_clamped_formula_fresh :
  PyRandom.unit_draw (PyFloat.lit 1 2)
  /\ PersonaM.should_ask_extraction_question (PyFloat.lit 1 2) PersonaM.new_persona
     = Some false.
Proof.
  assert (Hu : PyRandom.unit_draw (PyFloat.lit 1 2))
    by (split; vm_compute; reflexivity).
  split; [exact Hu|].
  destruct (ask_probability_clamped_formula PersonaM.new_persona _ Hu) as (H & _).
  rewrite H. vm_compute. reflexivity.
Defined.

(** ** Strings *)

Section StringFacts.

Import PyStr.

Lemma startswith_app (m t : string) : startswith (m ++ t) m = true.
Proof.
  unfold startswith. induction m as [|c m IH]; [destruct t; reflexivity|].
  change (String c m ++ t) with (String c (m ++ t)). simpl.
  destruct (ascii_dec c c); [exact IH|congruence].
Qed.

Lemma startswith_split (s m : string) :
  startswith s m = true -> exists t, s = m ++ t.
Proof.
  unfold startswith. revert s.
  induction m as [|c m IH]; intros s H; [exists s; reflexivity|].
  destruct s as [|d s]; simpl in H; [discriminate|].
  destruct (ascii_dec c d) as [->|]; [|discriminate].
  destruct (IH s H) as [t ->]. exists t. reflexivity.
Qed.

Lemma string_app_assoc (a b c : string) : (a ++ b) ++ c = a ++ (b ++ c).
Proof.
  induction a as [|x a IH]; [reflexivity|].
  change (String x (a ++ b ++ c)) with (String x a ++ b ++ c) in *.
  change (String x ((a ++ b) ++ c) = String x (a ++ b ++ c)).
  rewrite IH. reflexivity.
Qed.

Lemma rstrip_by_keeps_prefix (strip_it : ascii -> bool) (m t : string) :
  ends_outside strip_it m = true ->
  exists t', rstrip_by strip_it (m ++ t) = m ++ t'.
Proof.
  induction m as [|c m IH]; [discriminate|].
  destruct m as [|c' m'].
  - intros Hc. simpl in Hc. apply negb_true_iff in Hc.
    change (String c "" ++ t) with (String c t). simpl. rewrite Hc.
    destruct (rstrip_by strip_it t) as [|k kept];
      [exists ""|exists (String k kept)]; reflexivity.
  - intros Hm. change (ends_outside strip_it (String c' m') = true) in Hm.
    destruct (IH Hm) as [t' Ht'].
    exists t'. change (String c (String c' m') ++ t)
      with (String c (String c' m' ++ t)).
    cbn [rstrip_by]. rewrite Ht'. reflexivity.
Qed.

End StringFacts.

(** ** Orchestrator *)

Section AgentProperties.

Import PersonaM Agent.

Lemma fallback_response_canned (r : nat) :
  exists reply, _get_fallback_response r = Some reply
                /\ In reply fallback_responses
                /\ reply <> ""
                /\ nth_error fallback_responses (Nat.modulo r 4) = Some reply.
Proof.
  unfold _get_fallback_response, PyRandom.choice, fallback_responses.
  cbn [List.length].
  pose proof (Nat.mod_upper_bound r 4 ltac:(discriminate)) as Hlt.
  destruct (Nat.modulo r 4) as [|[|[|[|n]]]]; [| | | |exfalso; lia];
    cbn; eexists; (split; [reflexivity|]); (split; [|split; [discriminate|reflexivity]]);
    auto 6.
Qed.

Lemma try_models_loop_text (m1 m2 : string) (o1 o2 : ModelOutcome)
    (last : option string) :
  (try_models [(m1, o1); (m2, o2)] None last).1 = loop_text o1 o2.
Proof.
  destruct o1 as [|t1], o2 as [|t2]; cbn [try_models loop_text];
    try destruct (usable t1); try destruct (usable t2); reflexivity.
Qed.

Lemma empty_text_cases (response_text : option string) :
  empty_text response_text = true
  <-> response_text = None \/ response_text = Some "".
Proof.
  destruct response_text as [[|c s]|]; cbn; split; auto; try discriminate;
    intros [H|H]; discriminate.
Qed.

Lemma generate_response_fallback_path (self : HoneypotAgent) (persona : Persona)
    (o1 o2 : ModelOutcome) (rnd : Draws) :
  let rt := (try_models [(model self, o1); (fallback_model self, o2)] None
               (_last_model_used self)).1 in
  rt = None \/ rt = Some "" ->
  exists self',
    _generate_response self persona o1 o2 rnd
    = (_get_fallback_response (draw_fallback rnd), persona, self')
    /\ persona_manager self' = persona_manager self
    /\ policy self' = policy self.
Proof.
  cbv zeta. unfold _generate_response.
  destruct (try_models _ None (_last_model_used self)) as [rt last].
  cbn [fst]. intros [-> | ->]; eexists; repeat split.
Qed.

Lemma generate_response_frame (self : HoneypotAgent) (persona : Persona)
    (o1 o2 : ModelOutcome) (rnd : Draws) :
  let out := _generate_response self persona o1 o2 rnd in
  (out.1.2 = persona \/ out.1.2 = record_extraction persona)
  /\ persona_manager out.2 = persona_manager self
  /\ policy out.2 = policy self.
Proof.
  cbv zeta. unfold _generate_response.
  destruct (try_models _ None (_last_model_used self)) as [rt last].
  destruct rt as [[|c text]|]; [cbn; auto| |cbn; auto].
  repeat case_match; cbn; auto.
Qed.

(** What [engage] returns, in terms of the two calls it makes. *)
Lemma engage_unfold (self : HoneypotAgent) (confidence : float)
    (cid : option string) (uuid4 : string) (o1 o2 : ModelOutcome)
    (rnd : Draws) (elapsed : Z) :
  let conv_id := conv_id_of cid uuid4 in
  let up := update_persona (persona_manager self) conv_id confidence false in
  let out := _generate_response (with_manager self up.2) up.1 o1 o2 rnd in
  let mode := Policy.get_engagement_mode (policy self) confidence in
  let state := {| Policy.mode := mode;
                  Policy.turn_count := engagement_turn out.1.2;
                  Policy.duration_seconds := elapsed;
                  Policy.intelligence_complete := false;
                  Policy.scammer_suspicious := false;
                  Policy.turns_since_new_info := 0 |} in
  let continue := Policy.should_continue (policy self) state in
  exists reply,
    match out.1.1 with
    | Some text => reply = text
    | None => _get_fallback_response (draw_fallback rnd) = Some reply
    end
    /\ engage self confidence cid uuid4 o1 o2 rnd elapsed
       = Some ({| response := reply;
                  duration_seconds := elapsed;
                  conversation_id := conv_id;
                  turn_number := engagement_turn out.1.2;
                  engagement_mode := mode;
                  should_continue := continue;
                  exit_reason :=
                    if negb continue
                    then Policy.get_exit_reason (policy self) state
                    else None |},
               with_manager out.2 (store up.2 conv_id out.1.2)).
Proof.
  cbv zeta. unfold engage.
  pose proof (generate_response_frame
                (with_manager self
                   (update_persona (persona_manager self) (conv_id_of cid uuid4)
                      confidence false).2)
                (update_persona (persona_manager self) (conv_id_of cid uuid4)
                   confidence false).1 o1 o2 rnd) as (_ & Hpm & Hpol).
  cbv zeta in Hpm, Hpol.
  destruct (update_persona (persona_manager self) (conv_id_of cid uuid4)
              confidence false) as [persona pm].
  cbn [fst snd] in *.
  destruct (_generate_response (with_manager self pm) persona o1 o2 rnd)
    as [[generated persona'] self'].
  cbn [fst snd] in *. cbn in Hpm, Hpol.
  cbn [policy with_manager persona_manager]. rewrite Hpm, Hpol.
  destruct generated as [text|].
  - exists text. split; reflexivity.
  - destruct (fallback_response_canned (draw_fallback rnd)) as (reply & Hr & _).
    exists reply. rewrite Hr. split; reflexivity.
Qed.

Lemma add_modifier_cases (persona : Persona) (text : string) :
  let modifier := get_emotional_modifier persona in
  let shaped := add_modifier persona text in
  (shaped = text
   \/ (PyStr.startswith text modifier = false /\ shaped = modifier ++ text))
  /\ (engagement_turn persona > 0 -> modifier <> "" ->
      PyStr.startswith shaped modifier = true).
Proof.
  cbv zeta. unfold add_modifier.
  destruct (Z.gtb_spec (engagement_turn persona) 0) as [Hpos|Hnpos].
  - destruct (get_emotional_modifier persona) as [|c m] eqn:Hm; cbn [PyStr.truthy andb].
    + split; [auto|]. intros _ Habs. congruence.
    + destruct (PyStr.startswith text (String c m)) eqn:Hst; cbn [negb].
      * split; [auto|]. intros _ _. exact Hst.
      * split; [auto|]. intros _ _. apply startswith_app.
  - split; [auto|]. intros Habs. lia.
Qed.

Lemma modifier_ends_outside_dot (persona : Persona) :
  get_emotional_modifier persona <> "" ->
  PyStr.ends_outside (fun c => Ascii.eqb c ".") (get_emotional_modifier persona)
  = true.
Proof.
  unfold get_emotional_modifier.
  destruct (emotional_state persona); intros H; try reflexivity; congruence.
Qed.

Lemma extraction_question_drawn (r : nat) :
  exists question,
    PyRandom.choice r Prompts.EXTRACTION_QUESTIONS = Some question
    /\ nth_error Prompts.EXTRACTION_QUESTIONS (Nat.modulo r 6) = Some question.
Proof.
  unfold PyRandom.choice, Prompts.EXTRACTION_QUESTIONS. cbn [List.length].
  pose proof (Nat.mod_upper_bound r 6 ltac:(discriminate)) as Hlt.
  destruct (Nat.modulo r 6) as [|[|[|[|[|[|n]]]]]]; [| | | | | |exfalso; lia];
    cbn; eexists; split; reflexivity.
Qed.

(** C6, as the code has it. The text the loop over the models ends with
    is the primary model's where that is usable, otherwise what the
    fallback model returns, otherwise (the fallback model raising) what
    the primary model returned. Where that text is not empty it is
    post-processed: at a turn above 0 and with a non-empty emotional
    modifier the reply starts with the modifier, which is prepended unless
    the text starts with it already; and the reply is either that text
    with the persona untouched, or, only where the text mentions none of
    "account", "upi", "link", "number" in lower case, the text without its
    trailing periods followed by a space and the drawn extraction
    question, with the extraction recorded. Where that text is missing or
    empty the fallback reply is returned as drawn, with the persona
    untouched. *)
Theorem generated_text_post_processing (self : HoneypotAgent)
    (persona : Persona) (o1 o2 : ModelOutcome) (rnd : Draws) (text : string) :
  let rt := (try_models [(model self, o1); (fallback_model self, o2)] None
               (_last_model_used self)).1 in
  let out := _generate_response self persona o1 o2 rnd in
  let modifier := get_emotional_modifier persona in
  let shaped := add_modifier persona text in
  rt = loop_text o1 o2
  /\ (rt = Some text -> text <> "" ->
   forall reply, out.1.1 = Some reply ->
     (engagement_turn persona > 0 -> modifier <> "" ->
      PyStr.startswith reply modifier = true)
     /\ (shaped = text
         \/ (PyStr.startswith text modifier = false
             /\ shaped = modifier ++ text))
     /\ ((reply = shaped /\ out.1.2 = persona)
         \/ (mentions_keyword shaped = false
             /\ (exists question,
                   nth_error Prompts.EXTRACTION_QUESTIONS
                     (Nat.modulo (draw_question rnd) 6) = Some question
                   /\ reply = PyStr.rstrip_dot shaped ++ " " ++ question)
             /\ out.1.2 = record_extraction persona)))
  /\ (rt = None \/ rt = Some "" ->
      out.1.1 = _get_fallback_response (draw_fallback rnd)
      /\ out.1.2 = persona).
Proof.
  cbv zeta. split; [apply try_models_loop_text|]. split.
  - intros Hrt Hne reply Hout.
    destruct (add_modifier_cases persona text) as [Hshape Hstart].
    cbv zeta in Hshape, Hstart.
    split; [|split; [exact Hshape|]].
    + intros Hturn Hmod. specialize (Hstart Hturn Hmod).
      revert Hout. unfold _generate_response.
      destruct (try_models _ None (_last_model_used self)) as [rt last].
      cbn [fst] in Hrt. subst rt.
      destruct text as [|c text]; [congruence|].
      destruct (should_ask_extraction_question _ _) as [[|]|]; cbn [fst snd];
        [|congruence|discriminate].
      destruct (PyRandom.choice _ Prompts.EXTRACTION_QUESTIONS) as [question|];
        [|discriminate].
      destruct (mentions_keyword _); cbn [negb fst snd]; [congruence|].
      intros [= <-].
      apply startswith_split in Hstart as [t Ht]. rewrite Ht.
      destruct (rstrip_by_keeps_prefix (fun c => Ascii.eqb c ".")
                  (get_emotional_modifier persona) t
                  (modifier_ends_outside_dot persona Hmod)) as [t' Ht'].
      unfold PyStr.rstrip_dot. rewrite Ht', string_app_assoc.
      apply startswith_app.
    + revert Hout. unfold _generate_response.
      destruct (try_models _ None (_last_model_used self)) as [rt last].
      cbn [fst] in Hrt. subst rt.
      destruct text as [|c text]; [congruence|].
      destruct (should_ask_extraction_question _ _) as [[|]|]; cbn [fst snd];
        [|intros [= <-]; auto|discriminate].
      destruct (extraction_question_drawn (draw_question rnd))
        as (question & Hq & Hnth).
      rewrite Hq.
      destruct (mentions_keyword _) eqn:Hkw; cbn [negb fst snd];
        intros [= <-]; [auto|].
      right. split; [reflexivity|]. split; [|reflexivity]. eauto.
  - intros Hrt.
    destruct (generate_response_fallback_path self persona o1 o2 rnd Hrt)
      as (self' & -> & _). split; reflexivity.
Qed.

(** X22. [engage] always returns a result. Where the loop over the models
    ends with a missing or empty text, and where [_generate_response]
    itself raises, the reply is the canned fallback string at the drawn
    index, one of four strings none of which is empty, each of which some
    draw selects. *)
Theorem engage_fallback_reply (self : HoneypotAgent) (confidence : float)
    (cid : option string) (uuid4 : string) (o1 o2 : ModelOutcome)
    (rnd : Draws) (elapsed : Z) :
  let up := update_persona (persona_manager self) (conv_id_of cid uuid4)
              confidence false in
  let out := _generate_response (with_manager self up.2) up.1 o1 o2 rnd in
  exists result self',
    engage self confidence cid uuid4 o1 o2 rnd elapsed = Some (result, self')
    /\ (empty_text (loop_text o1 o2) = true ->
        nth_error fallback_responses (Nat.modulo (draw_fallback rnd) 4)
        = Some (response result))
    /\ (out.1.1 = None ->
        nth_error fallback_responses (Nat.modulo (draw_fallback rnd) 4)
        = Some (response result))
    /\ (forall i reply, nth_error fallback_responses i = Some reply ->
        reply <> "" /\ (i < 4)%nat /\ _get_fallback_response i = Some reply).
Proof.
  cbv zeta.
  destruct (engage_unfold self confidence cid uuid4 o1 o2 rnd elapsed)
    as (reply & Hreply & Heng).
  cbv zeta in Hreply, Heng.
  eexists _, _. split; [exact Heng|]. cbn [response].
  split; [|split].
  - intros Hempty. apply empty_text_cases in Hempty.
    rewrite <- (try_models_loop_text
                  (model (with_manager self
                     (update_persona (persona_manager self)
                        (conv_id_of cid uuid4) confidence false).2))
                  (fallback_model (with_manager self
                     (update_persona (persona_manager self)
                        (conv_id_of cid uuid4) confidence false).2))
                  o1 o2
                  (_last_model_used (with_manager self
                     (update_persona (persona_manager self)
                        (conv_id_of cid uuid4) confidence false).2)))
      in Hempty.
    destruct (generate_response_fallback_path
                (with_manager self
                   (update_persona (persona_manager self) (conv_id_of cid uuid4)
                      confidence false).2)
                (update_persona (persona_manager self) (conv_id_of cid uuid4)
                   confidence false).1 o1 o2 rnd Hempty) as (s' & Hgen & _).
    rewrite Hgen in Hreply. cbn [fst] in Hreply.
    destruct (fallback_response_canned (draw_fallback rnd))
      as (r & Hr & _ & _ & Hnth).
    rewrite Hr in Hreply. cbn in Hreply. subst reply. exact Hnth.
  - intros Hnone. rewrite Hnone in Hreply.
    destruct (fallback_response_canned (draw_fallback rnd))
      as (r & Hr & _ & _ & Hnth).
    congruence.
  - intros i canned Hi.
    destruct i as [|[|[|[|i]]]]; cbn in Hi; simplify_eq;
      try (repeat split; [discriminate|lia]).
    destruct i; discriminate.
Qed.

(** C8. Every call of [engage] leaves the persona of the conversation one
    turn further than it was (turn 1 for a new conversation), with the
    emotional state the thresholds give to the confidence, whatever the
    models answer and whatever is drawn, and reports that turn. *)
Theorem engage_updates_persona_once (self : HoneypotAgent) (confidence : float)
    (cid : option string) (uuid4 : string) (o1 o2 : ModelOutcome)
    (rnd : Draws) (elapsed : Z) :
  let conv_id := conv_id_of cid uuid4 in
  let before :=
    default new_persona (personas (persona_manager self) !! conv_id) in
  exists result self' after,
    engage self confidence cid uuid4 o1 o2 rnd elapsed = Some (result, self')
    /\ personas (persona_manager self') !! conv_id = Some after
    /\ engagement_turn after = engagement_turn before + 1
    /\ emotional_state after =
         (if PyFloat.gt confidence (PyFloat.lit 8 10) then PANICKED
          else if PyFloat.gt confidence (PyFloat.lit 5 10) then ANXIOUS
          else CALM)
    /\ turn_number result = engagement_turn after
    /\ conversation_id result = conv_id.
Proof.
  cbv zeta.
  destruct (engage_unfold self confidence cid uuid4 o1 o2 rnd elapsed)
    as (reply & _ & Heng).
  cbv zeta in Heng.
  pose proof (generate_response_frame
                (with_manager self
                   (update_persona (persona_manager self) (conv_id_of cid uuid4)
                      confidence false).2)
                (update_persona (persona_manager self) (conv_id_of cid uuid4)
                   confidence false).1 o1 o2 rnd) as (Hpers & _ & _).
  cbv zeta in Hpers.
  destruct (update_persona_turn_emotion (persona_manager self)
              (conv_id_of cid uuid4) confidence false) as (Hturn & Hemo).
  cbv zeta in Hturn, Hemo.
  eexists _, _, _. split; [exact Heng|].
  cbn [persona_manager with_manager store personas turn_number conversation_id].
  split; [apply lookup_insert_eq|].
  destruct Hpers as [-> | ->]; cbn [record_extraction engagement_turn emotional_state];
    rewrite Hturn, Hemo; repeat split.
Qed.

End AgentProperties.

Section ExitReason.

Import Policy.

(** C2. [get_exit_reason] is [None] exactly when [should_continue] is
    true; otherwise it is the reason of the first stop condition that
    holds, in the order turns, duration, intelligence complete, scammer
    suspicious, stale, so that a state at its turn limit with a
    suspicious scammer reports the turn limit; and the result of [engage]
    has an exit reason exactly when its continuation flag is false. *)
Theorem exit_reason_priority (self : EngagementPolicy) (state : EngagementState) :
  (get_exit_reason self state = None <-> should_continue self state = true)
  /\ get_exit_reason self state
     = Spec.first_matching (Spec.stop_rules self state)
  /\ (turn_count state >= Spec.max_turns_of self (mode state) ->
      scammer_suspicious state = true ->
      get_exit_reason self state
      = Some ("Max turns reached ("
                ++ str_of_int (Spec.max_turns_of self (mode state)) ++ ")")
      /\ get_exit_reason self state <> Some "Scammer became suspicious")
  /\ (forall agent confidence cid uuid4 o1 o2 rnd elapsed result agent',
        Agent.engage agent confidence cid uuid4 o1 o2 rnd elapsed
        = Some (result, agent') ->
        (Agent.exit_reason result = None
         <-> Agent.should_continue result = true)).
Proof.
  split; [apply get_exit_reason_none_iff|].
  split; [apply get_exit_reason_first_matching|].
  split.
  - intros Hturn _.
    assert (Hr : get_exit_reason self state
                 = Some ("Max turns reached ("
                           ++ str_of_int (Spec.max_turns_of self (mode state))
                           ++ ")")).
    { unfold get_exit_reason. rewrite max_turns_spec.
      rewrite Z.geb_leb. destruct (Z.leb_spec (Spec.max_turns_of self (mode state))
                                     (turn_count state)); [reflexivity|lia]. }
    split; [exact Hr|]. rewrite Hr. cbn. discriminate.
  - intros agent confidence cid uuid4 o1 o2 rnd elapsed result agent' Heng.
    destruct (engage_unfold agent confidence cid uuid4 o1 o2 rnd elapsed)
      as (reply & _ & Heq).
    cbv zeta in Heq. rewrite Heq in Heng. simplify_eq. cbn.
    match goal with
    | |- context [ negb (should_continue ?p ?st) ] =>
        pose proof (get_exit_reason_none_iff p st) as Hiff;
        destruct (should_continue p st)
    end; cbn; [tauto|].
    split; [intros H; apply Hiff in H; discriminate|discriminate].
Qed.

End ExitReason.

(** ** The properties on sample values *)

Lemma exit_reason_priority_at_limit :
  let self := Policy.init Policy.documented_settings in
  (Policy.turn_count Sample.state_at_limit
     >= Spec.max_turns_of self (Policy.mode Sample.state_at_limit)
   /\ Policy.scammer_suspicious Sample.state_at_limit = true)
  /\ Policy.get_exit_reason self Sample.state_at_limit
     = Some "Max turns reached (25)".
Proof.
  intros self.
  assert (H1 : Policy.turn_count Sample.state_at_limit
               >= Spec.max_turns_of self (Policy.mode Sample.state_at_limit))
    by (vm_compute; discriminate).
  assert (H2 : Policy.scammer_suspicious Sample.state_at_limit = true)
    by reflexivity.
  split; [auto|].
  destruct (exit_reason_priority self Sample.state_at_limit)
    as (_ & _ & Hprio & _).
  destruct (Hprio H1 H2) as [Hr _]. exact Hr.
Defined.

Lemma engage_fallback_reply_both_fail :
  Agent.empty_text
    (Agent.loop_text (Agent.Returns (Some "  ")) (Agent.Returns (Some "")))
  = true
  /\ exists result agent',
       Agent.engage Sample.agent (PyFloat.lit 9 10) None "uuid-1"
         (Agent.Returns (Some "  ")) (Agent.Returns (Some "")) Sample.draws 0
       = Some (result, agent')
       /\ Agent.response result
          = "My phone is acting up. What do I need to do exactly?".
Proof.
  assert (H : Agent.empty_text
                (Agent.loop_text (Agent.Returns (Some "  "))
                   (Agent.Returns (Some ""))) = true) by reflexivity.
  split; [exact H|].
  destruct (engage_fallback_reply Sample.agent (PyFloat.lit 9 10) None "uuid-1"
              (Agent.Returns (Some "  ")) (Agent.Returns (Some ""))
              Sample.draws 0)
    as (result & agent' & Heng & Hfail & _).
  exists result, agent'. split; [exact Heng|].
  specialize (Hfail H). cbn in Hfail. congruence.
Defined.

(** C7, against the code. Both models return a text of two blanks, at a
    confidence of 0.3 and with a draw that asks no question. The loop
    takes neither text (its test fails on both, and it logs an empty
    response), yet the test after the loop passes a text of blanks: the
    reply is the two blanks, stripped of white space it is empty, and it
    is none of the four canned strings. *)
Theorem engage_blank_text_not_canned :
  Agent.usable (Some "  ") = false
  /\ exists result agent',
       Agent.engage Sample.agent (PyFloat.lit 3 10) None "uuid-1"
         (Agent.Returns (Some "  ")) (Agent.Returns (Some "  "))
         Sample.quiet_draws 0 = Some (result, agent')
       /\ Agent.response result = "  "
       /\ PyStr.strip (Agent.response result) = ""
       /\ ~ In (Agent.response result) Agent.fallback_responses.
Proof.
  split; [reflexivity|].
  eexists _, _. split; [vm_compute; reflexivity|].
  cbn [Agent.response]. split; [reflexivity|]. split; [reflexivity|].
  cbn. intros [H|[H|[H|[H|[]]]]]; discriminate.
Qed.

(** C6, as the claim has it, fails: with a confidence of 0.9 the persona
    is panicked at turn 1, and where no model gives a text the reply is
    the canned string, which does not start with the modifier. *)
Lemma fallback_reply_lacks_modifier :
  exists result agent' persona,
    Agent.engage Sample.agent (PyFloat.lit 9 10) (Some "c1") "uuid-1"
      (Agent.Returns (Some "")) (Agent.Returns None) Sample.draws 0
    = Some (result, agent')
    /\ PersonaM.personas (Agent.persona_manager agent') !! "c1" = Some persona
    /\ PersonaM.engagement_turn persona > 0
    /\ PersonaM.get_emotional_modifier persona = "Oh god, please help! "
    /\ Agent.response result
       = "My phone is acting up. What do I need to do exactly?"
    /\ PyStr.startswith (Agent.response result)
         (PersonaM.get_emotional_modifier persona) = false.
Proof.
  eexists _, _, _. split; [vm_compute; reflexivity|].
  split; [vm_compute; reflexivity|].
  repeat split.
Qed.

Lemma generated_text_post_processing_sample :
  let persona :=
    (PersonaM.update_persona PersonaM.new_manager "c1" (PyFloat.lit 9 10) false).1 in
  let o1 := Agent.Returns (Some "Okay sir. What to do..") in
  let out := Agent._generate_response Sample.agent persona o1 Agent.Raises
               Sample.draws in
  ((Agent.try_models [(Agent.model Sample.agent, o1);
                      (Agent.fallback_model Sample.agent, Agent.Raises)]
      None (Agent._last_model_used Sample.agent)).1
   = Some "Okay sir. What to do.."
   /\ "Okay sir. What to do.." <> ""
   /\ out.1.1 = Some "Oh god, please help! Okay sir. What to do Can you send me the link again? It's not working on my phone."
   /\ PersonaM.engagement_turn persona > 0
   /\ PersonaM.get_emotional_modifier persona <> "")
  /\ PyStr.startswith "Oh god, please help! Okay sir. What to do Can you send me the link again? It's not working on my phone."
       (PersonaM.get_emotional_modifier persona) = true.
Proof.
  intros persona o1 out.
  assert (H1 : (Agent.try_models [(Agent.model Sample.agent, o1);
                      (Agent.fallback_model Sample.agent, Agent.Raises)]
      None (Agent._last_model_used Sample.agent)).1
   = Some "Okay sir. What to do..") by reflexivity.
  assert (H2 : "Okay sir. What to do.." <> "") by discriminate.
  assert (H3 : out.1.1 = Some "Oh god, please help! Okay sir. What to do Can you send me the link again? It's not working on my phone.")
    by (vm_compute; reflexivity).
  assert (H4 : PersonaM.engagement_turn persona > 0) by (vm_compute; reflexivity).
  assert (H5 : PersonaM.get_emotional_modifier persona <> "")
    by (vm_compute; discriminate).
  split; [auto 6|].
  destruct (generated_text_post_processing Sample.agent persona o1 Agent.Raises
              Sample.draws "Okay sir. What to do..") as (_ & Htext & _).
  destruct (Htext H1 H2 _ H3) as (Hstart & _).
  exact (Hstart H4 H5).
Defined.

(** * Further properties *)

(** ** More on the order of the floats *)

Section FloatOrderMore.

Import PyFloat.

Lemma key_some (x : float) : is_nan x = false -> exists a, key x = Some a.
Proof.
  destruct x as [s|s| |s m e]; try discriminate; intros _; cbn [key];
    try destruct s; eauto.
Qed.

Lemma key_none (x : float) : is_nan x = true -> key x = None.
Proof. destruct x; try discriminate; reflexivity. Qed.

Lemma key_lt_total (a b : Z * Z * Z) : ~ key_lt a b -> a <> b -> key_lt b a.
Proof.
  destruct a as [[c1 e1] m1], b as [[c2 e2] m2]. unfold key_lt.
  intros Hnlt Hne.
  assert (c1 <> c2 \/ e1 <> e2 \/ m1 <> m2) as Hd.
  { destruct (decide (c1 = c2)) as [->|]; [|auto].
    destruct (decide (e1 = e2)) as [->|]; [|auto].
    destruct (decide (m1 = m2)) as [->|]; [|auto]. congruence. }
  lia.
Qed.

Lemma float_le_false_lt (x y : float) :
  is_nan x = false -> is_nan y = false -> le x y = false -> lt y x = true.
Proof.
  intros [a Ha]%key_some [b Hb]%key_some Hle.
  apply float_lt_key. exists b, a. repeat split; try assumption.
  apply key_lt_total.
  - intros Hlt. assert (le x y = true) as Habs; [|congruence].
    apply float_le_key. eauto 8.
  - intros ->. assert (le x y = true) as Habs; [|congruence].
    apply float_le_key. eauto 8.
Qed.

Lemma float_le_numbers (x y : float) :
  le x y = true -> is_nan x = false /\ is_nan y = false.
Proof.
  intros (a & b & Ha & Hb & _)%float_le_key.
  destruct x, y; try discriminate; auto.
Qed.

Lemma float_le_nan_r (x y : float) : is_nan y = true -> le x y = false.
Proof.
  intros Hy. destruct (le x y) eqn:E; [|reflexivity].
  apply float_le_numbers in E as [_ E]. congruence.
Qed.

Lemma float_lt_le_trans (x y z : float) :
  lt x y = true -> le y z = true -> lt x z = true.
Proof.
  rewrite float_le_key, !float_lt_key.
  intros (a & b & Ha & Hb & Hab) (b' & c & Hb' & Hc & Hbc).
  simplify_eq. exists a, c. repeat split; try assumption.
  destruct Hbc as [Hbc| ->]; eauto using key_lt_trans.
Qed.

End FloatOrderMore.

(** ** More on the engagement policy *)

Section PolicyMore.

Import Policy.

Variable self : EngagementPolicy.

(** X1. Once [should_continue] is false it stays false as the
    conversation goes on in the same mode: more turns, more time, more
    stale turns and flags that stay raised never resume an engagement. *)
Theorem stop_is_final (state later : EngagementState)
    (Hmode : mode later = mode state)
    (Hturn : turn_count state <= turn_count later)
    (Hdur : duration_seconds state <= duration_seconds later)
    (Hint : intelligence_complete state = true ->
            intelligence_complete later = true)
    (Hsus : scammer_suspicious state = true ->
            scammer_suspicious later = true)
    (Hstale : turns_since_new_info state <= turns_since_new_info later)
    (Hstop : should_continue self state = false) :
  should_continue self later = false.
Proof.
  revert Hstop. unfold should_continue, max_turns. rewrite Hmode.
  repeat match goal with
         | |- context [ (?a >=? ?b) ] =>
             rewrite (Z.geb_leb a b); destruct (Z.leb_spec b a)
         end;
    destruct (intelligence_complete state), (intelligence_complete later),
      (scammer_suspicious state), (scammer_suspicious later);
    intros; try reflexivity; try discriminate; try lia;
    try (specialize (Hint eq_refl); discriminate);
    try (specialize (Hsus eq_refl); discriminate).
Qed.

(** X2. The exit reason tells which stop condition ended the engagement:
    each reason is returned exactly when its condition holds and every
    condition before it in the order fails. *)
Theorem exit_reason_identifies_condition (state : EngagementState) :
  let limit := Spec.max_turns_of self (mode state) in
  (get_exit_reason self state
   = Some ("Max turns reached (" ++ str_of_int limit ++ ")")
   <-> turn_count state >= limit)
  /\ (get_exit_reason self state
      = Some ("Max duration exceeded ("
                ++ str_of_int (max_duration_seconds self) ++ "s)")
      <-> turn_count state < limit
          /\ duration_seconds state >= max_duration_seconds self)
  /\ (get_exit_reason self state = Some "Intelligence extraction complete"
      <-> turn_count state < limit
          /\ duration_seconds state < max_duration_seconds self
          /\ intelligence_complete state = true)
  /\ (get_exit_reason self state = Some "Scammer became suspicious"
      <-> turn_count state < limit
          /\ duration_seconds state < max_duration_seconds self
          /\ intelligence_complete state = false
          /\ scammer_suspicious state = true)
  /\ (get_exit_reason self state
      = Some ("No new information in "
                ++ str_of_int (stale_turn_threshold self) ++ " turns")
      <-> turn_count state < limit
          /\ duration_seconds state < max_duration_seconds self
          /\ intelligence_complete state = false
          /\ scammer_suspicious state = false
          /\ turns_since_new_info state >= stale_turn_threshold self).
Proof.
  cbv zeta. unfold get_exit_reason. rewrite max_turns_spec.
  repeat match goal with
         | |- context [ (?a >=? ?b) ] =>
             rewrite (Z.geb_leb a b); destruct (Z.leb_spec b a)
         end;
    destruct (intelligence_complete state), (scammer_suspicious state);
    repeat split; intros;
    repeat match goal with H : _ /\ _ |- _ => destruct H end;
    try reflexivity; try lia; try discriminate;
    try match goal with H : Some _ = Some _ |- _ => cbn in H; discriminate end.
Qed.

(** X3. The tiers of [get_engagement_mode]: a confidence that is not a
    number is in no tier; with the cautious threshold at or below the
    aggressive one, the mode is cautious exactly between the two and none
    exactly below the cautious one (or for no number); with the aggressive
    threshold at or below the cautious one, no confidence is cautious. *)
Theorem engagement_mode_tiers (c : float) :
  (PyFloat.is_nan c = true -> get_engagement_mode self c = NONE)
  /\ (PyFloat.le (cautious_threshold self) (aggressive_threshold self) = true ->
      (get_engagement_mode self c = CAUTIOUS
       <-> PyFloat.le (cautious_threshold self) c = true
           /\ PyFloat.lt c (aggressive_threshold self) = true)
      /\ (get_engagement_mode self c = NONE
          <-> PyFloat.is_nan c = true
              \/ PyFloat.lt c (cautious_threshold self) = true))
  /\ (PyFloat.le (aggressive_threshold self) (cautious_threshold self) = true ->
      get_engagement_mode self c <> CAUTIOUS).
Proof.
  unfold get_engagement_mode.
  assert (Hge : forall a b, PyFloat.ge a b = PyFloat.le b a) by reflexivity.
  rewrite !Hge. clear Hge.
  split; [|split].
  - intros Hnan. rewrite !(float_le_nan_r _ _ Hnan). reflexivity.
  - intros Hord. destruct (float_le_numbers _ _ Hord) as [Hc Ha].
    destruct (PyFloat.le (aggressive_threshold self) c) eqn:Hac.
    + destruct (float_le_numbers _ _ Hac) as [_ Hcn].
      split; split; try discriminate.
      * intros [_ Hlt]. rewrite (float_lt_not_le _ _ Hlt) in Hac. discriminate.
      * intros [Hn|Hlt]; [congruence|].
        pose proof (float_le_trans _ _ _ Hord Hac) as Hcc.
        rewrite (float_lt_not_le _ _ Hlt) in Hcc. discriminate.
    + destruct (PyFloat.le (cautious_threshold self) c) eqn:Hcc.
      * destruct (float_le_numbers _ _ Hcc) as [_ Hcn].
        split; split; try discriminate.
        -- intros _. split; [reflexivity|].
           apply float_le_false_lt; assumption.
        -- reflexivity.
        -- intros [Hn|Hlt]; [congruence|].
           rewrite (float_lt_not_le _ _ Hlt) in Hcc. discriminate.
      * split; split; try discriminate; try reflexivity.
        -- intros [Habs _]. discriminate.
        -- intros _. destruct (PyFloat.is_nan c) eqn:Hn; [auto|].
           right. apply float_le_false_lt; assumption.
  - intros Hord.
    destruct (PyFloat.le (aggressive_threshold self) c) eqn:Hac; [discriminate|].
    destruct (PyFloat.le (cautious_threshold self) c) eqn:Hcc; [|discriminate].
    rewrite (float_le_trans _ _ _ Hord Hcc) in Hac. discriminate.
Qed.

End PolicyMore.

(** ** More on the persona store *)

Section PersonaMore.

Import PersonaM Runs.

(** X4. [get_or_create_persona] is idempotent: a second call for the same
    conversation returns the persona of the first and changes nothing;
    the first call creates the default persona where there was none and
    touches no other conversation. *)
Theorem get_or_create_persona_idempotent (pm : PersonaManager) (id : string) :
  let first := get_or_create_persona pm id in
  get_or_create_persona first.2 id = first
  /\ (personas pm !! id = None -> first.1 = new_persona)
  /\ (forall other, other <> id ->
        personas first.2 !! other = personas pm !! other).
Proof.
  cbv zeta. unfold get_or_create_persona.
  destruct (personas pm !! id) as [q|] eqn:Hq; cbn [fst snd personas].
  - rewrite Hq. split; [reflexivity|]. split; [discriminate|reflexivity].
  - rewrite lookup_insert_eq. split; [reflexivity|]. split; [reflexivity|].
    intros other Hne. apply lookup_insert_ne. congruence.
Qed.

Lemma update_all_cons (pm : PersonaManager) (id : string)
    (step : float * bool) (rest : list (float * bool)) :
  update_all pm id (step :: rest)
  = update_all (update_persona pm id step.1 step.2).2 id rest.
Proof. reflexivity. Qed.

(** X5. A run of [update_persona] calls on one conversation advances the
    turn by the number of calls and the extraction count by the number of
    calls that reported an extraction, leaves the emotional state the
    last intensity gives, and keeps the traits, the claimed issues, the
    mentioned details and every other conversation as they were. *)
Theorem update_persona_run (pm : PersonaManager) (id : string)
    (steps : list (float * bool)) :
  let before := default new_persona (personas pm !! id) in
  let after := default new_persona (personas (update_all pm id steps) !! id) in
  engagement_turn after = engagement_turn before + Z.of_nat (List.length steps)
  /\ extracted_info_count after
     = extracted_info_count before + extractions steps
  /\ (forall x e, last steps = Some (x, e) ->
        emotional_state after = Spec.emotion_of x)
  /\ traits after = traits before
  /\ claimed_issues after = claimed_issues before
  /\ mentioned_details after = mentioned_details before
  /\ (forall other, other <> id ->
        personas (update_all pm id steps) !! other = personas pm !! other).
Proof.
  cbv zeta. revert pm.
  induction steps as [|[x0 e0] rest IH]; intros pm.
  - cbn. split; [lia|]. split; [unfold extractions; cbn; lia|].
    split; [intros x e Hlast; discriminate|]. repeat split.
  - rewrite update_all_cons. cbn [fst snd].
    destruct (update_persona_unfold pm id x0 e0) as [_ Hsnd].
    cbv zeta in Hsnd.
    specialize (IH (update_persona pm id x0 e0).2).
    rewrite Hsnd in IH. rewrite lookup_insert_eq in IH.
    cbn [default] in IH.
    destruct IH as (Hturn & Hcount & Hemo & Htr & Hcl & Hmd & Hother).
    split; [|split; [|split; [|split; [|split; [|split]]]]].
    + rewrite Hturn. destruct e0; cbn; lia.
    + rewrite Hcount. unfold extractions. destruct e0.
      * rewrite filter_cons_True by reflexivity.
        cbn [List.length record_extraction extracted_info_count Datatypes.id].
        cbn. lia.
      * rewrite filter_cons_False by (cbn; discriminate). cbn. lia.
    + intros x e Hlast. destruct rest as [|step rest'].
      * cbn in Hlast. injection Hlast as -> ->.
        unfold update_all. cbn [fold_left fst snd].
        rewrite Hsnd, lookup_insert_eq. destruct e; reflexivity.
      * apply (Hemo x e). exact Hlast.
    + rewrite Htr. destruct e0; reflexivity.
    + rewrite Hcl. destruct e0; reflexivity.
    + rewrite Hmd. destruct e0; reflexivity.
    + intros other Hne. rewrite (Hother other Hne).
      apply lookup_insert_ne. congruence.
Qed.

(** X6. [get_persona_context] is not a pure read: it creates the default
    persona of a conversation that has none, and leaves the manager as it
    is otherwise; the context it returns shows the turn, the emotional
    state and the modifier of that persona (the modifier empty exactly
    for the calm state) and the decision of
    [should_ask_extraction_question]; it raises exactly where that
    decision raises, the persona created all the same. *)
Theorem get_persona_context_effect (pm : PersonaManager) (id : string)
    (u : float) :
  let out := get_persona_context pm id u in
  let persona := default new_persona (personas pm !! id) in
  personas out.2 !! id = Some persona
  /\ (forall other, other <> id ->
        personas out.2 !! other = personas pm !! other)
  /\ (is_Some (personas pm !! id) -> out.2 = pm)
  /\ (forall ctx, out.1 = Some ctx ->
        ctx_engagement_turn ctx = engagement_turn persona
        /\ ctx_emotional_state ctx
           = EmotionalState_value (emotional_state persona)
        /\ ctx_emotional_modifier ctx = get_emotional_modifier persona
        /\ (ctx_emotional_modifier ctx = "" <-> ctx_emotional_state ctx = "calm")
        /\ should_ask_extraction_question u persona
           = Some (ctx_should_extract ctx))
  /\ (out.1 = None <-> should_ask_extraction_question u persona = None).
Proof.
  cbv zeta. unfold get_persona_context.
  destruct (get_or_create_persona_lookup pm id) as (Hp & Hid & Hother).
  cbv zeta in Hp, Hid, Hother.
  assert (Hsame : is_Some (personas pm !! id) ->
                  (get_or_create_persona pm id).2 = pm).
  { intros [q Hq]. unfold get_or_create_persona. rewrite Hq. reflexivity. }
  destruct (get_or_create_persona pm id) as [persona pm'].
  cbn [fst snd] in *. subst persona.
  split; [exact Hid|]. split; [exact Hother|]. split; [exact Hsame|].
  destruct (should_ask_extraction_question u _) as [b|]; cbn.
  - split; [|split; intros; discriminate].
    intros ctx [= <-]. cbn. repeat split; try reflexivity;
      unfold get_emotional_modifier, EmotionalState_value;
      destruct (emotional_state _); intros; try reflexivity; discriminate.
  - split; [intros ctx; discriminate|split; reflexivity].
Qed.




End PersonaMore.

(** ** More on the orchestrator *)

Section AgentMore.

Import PersonaM Agent Runs.

Lemma string_app_nonempty_r (a : string) (c : ascii) (b : string) :
  a ++ String c b <> "".
Proof. destruct a; discriminate. Qed.

Lemma add_modifier_nonempty (persona : Persona) (c : ascii) (rest : string) :
  add_modifier persona (String c rest) <> "".
Proof.
  destruct (add_modifier_cases persona (String c rest)) as [[-> | [_ ->]] _].
  - discriminate.
  - apply string_app_nonempty_r.
Qed.

Lemma generate_response_models (self : HoneypotAgent) (persona : Persona)
    (o1 o2 : ModelOutcome) (rnd : Draws) :
  let out := _generate_response self persona o1 o2 rnd in
  model out.2 = model self /\ fallback_model out.2 = fallback_model self.
Proof.
  cbv zeta. unfold _generate_response.
  destruct (try_models _ None (_last_model_used self)) as [rt last].
  destruct rt as [[|c t]|]; [cbn; auto| |cbn; auto].
  repeat case_match; cbn; auto.
Qed.

Lemma generate_response_nonempty (self : HoneypotAgent) (persona : Persona)
    (o1 o2 : ModelOutcome) (rnd : Draws) (reply : string) :
  (_generate_response self persona o1 o2 rnd).1.1 = Some reply -> reply <> "".
Proof.
  unfold _generate_response.
  destruct (try_models _ None (_last_model_used self)) as [rt last].
  destruct rt as [[|c t]|]; cbn [fst].
  - intros H. destruct (fallback_response_canned (draw_fallback rnd))
      as (r & Hr & _ & Hne & _). congruence.
  - pose proof (add_modifier_nonempty persona c t) as Hne.
    repeat case_match; cbn [fst]; intros [= <-]; try assumption.
    apply string_app_nonempty_r.
  - intros H. destruct (fallback_response_canned (draw_fallback rnd))
      as (r & Hr & _ & Hne & _). congruence.
Qed.

(** One call of [engage], field by field. *)
Lemma engage_spec (self : HoneypotAgent) (confidence : float)
    (cid : option string) (uuid4 : string) (o1 o2 : ModelOutcome)
    (rnd : Draws) (elapsed : Z) :
  let conv_id := conv_id_of cid uuid4 in
  let before :=
    default new_persona (personas (persona_manager self) !! conv_id) in
  let turned := update_emotional_state (increment_turn before) confidence in
  exists result self' after,
    engage self confidence cid uuid4 o1 o2 rnd elapsed = Some (result, self')
    /\ personas (persona_manager self')
       = <[conv_id := after]> (personas (persona_manager self))
    /\ (after = turned \/ after = record_extraction turned)
    /\ policy self' = policy self
    /\ model self' = model self
    /\ fallback_model self' = fallback_model self
    /\ response result <> ""
    /\ Agent.duration_seconds result = elapsed
    /\ conversation_id result = conv_id
    /\ turn_number result = engagement_turn before + 1
    /\ engagement_mode result
       = Policy.get_engagement_mode (policy self) confidence
    /\ (let state := {| Policy.mode := engagement_mode result;
                        Policy.turn_count := turn_number result;
                        Policy.duration_seconds := elapsed;
                        Policy.intelligence_complete := false;
                        Policy.scammer_suspicious := false;
                        Policy.turns_since_new_info := 0 |} in
        should_continue result = Policy.should_continue (policy self) state
        /\ exit_reason result = Policy.get_exit_reason (policy self) state).
Proof.
  cbv zeta.
  destruct (engage_unfold self confidence cid uuid4 o1 o2 rnd elapsed)
    as (reply & Hreply & Heng).
  cbv zeta in Hreply, Heng.
  set (conv := conv_id_of cid uuid4) in *.
  destruct (update_persona_unfold (persona_manager self) conv confidence false)
    as [Hup1 Hup2].
  cbv zeta in Hup1, Hup2.
  set (up := update_persona (persona_manager self) conv confidence false) in *.
  pose proof (generate_response_frame (with_manager self up.2) up.1 o1 o2 rnd)
    as (Hpers & Hpm & Hpol).
  pose proof (generate_response_models (with_manager self up.2) up.1 o1 o2 rnd)
    as (Hm1 & Hm2).
  pose proof (generate_response_nonempty (with_manager self up.2) up.1 o1 o2 rnd)
    as Hne.
  cbv zeta in Hpers, Hpm, Hpol, Hm1, Hm2.
  set (out := _generate_response (with_manager self up.2) up.1 o1 o2 rnd) in *.
  eexists _, _, out.1.2. split; [exact Heng|].
  cbn [persona_manager with_manager store personas policy model fallback_model
         response Agent.duration_seconds conversation_id turn_number
         engagement_mode should_continue exit_reason].
  split; [rewrite Hup2; apply insert_insert_eq|].
  split; [rewrite <- Hup1; exact Hpers|].
  split; [exact Hpol|]. split; [exact Hm1|]. split; [exact Hm2|].
  split.
  { destruct (out.1.1) as [t|] eqn:Ht.
    - subst reply. apply (Hne t). reflexivity.
    - destruct (fallback_response_canned (draw_fallback rnd))
        as (r & Hr & _ & Hrne & _). congruence. }
  split; [reflexivity|]. split; [reflexivity|].
  assert (Hturn : engagement_turn out.1.2
                  = engagement_turn
                      (default new_persona
                         (personas (persona_manager self) !! conv)) + 1).
  { destruct Hpers as [-> | ->]; rewrite Hup1; reflexivity. }
  split; [exact Hturn|]. split; [reflexivity|].
  split; [reflexivity|].
  match goal with
  | |- context [ negb (Policy.should_continue ?p ?st) ] =>
      pose proof (get_exit_reason_none_iff p st) as Hiff;
      destruct (Policy.should_continue p st)
  end; cbn [negb]; [|reflexivity].
  symmetry. apply Hiff. reflexivity.
Qed.



(** X9. The reply of [engage] is never the empty string, whatever the
    models return: a canned reply is not empty, a model's text is only
    used where it is not empty, and stripping its periods is followed by
    a question. *)
Theorem engage_reply_nonempty (self : HoneypotAgent) (confidence : float)
    (cid : option string) (uuid4 : string) (o1 o2 : ModelOutcome)
    (rnd : Draws) (elapsed : Z) :
  exists result self',
    engage self confidence cid uuid4 o1 o2 rnd elapsed = Some (result, self')
    /\ response result <> ""
    /\ (0 < String.length (response result))%nat.
Proof.
  destruct (engage_spec self confidence cid uuid4 o1 o2 rnd elapsed)
    as (result & self' & after & Heng & _ & _ & _ & _ & _ & Hne & _).
  exists result, self'. split; [exact Heng|]. split; [exact Hne|].
  destruct (response result); [congruence|cbn; lia].
Qed.

(** X10. [engage] passes no signal of its own to the policy: with a
    positive stale threshold it continues exactly while the turn is below
    the limit of the mode and the elapsed time below the maximum, and its
    exit reason is the turn limit, else the duration, else none; it never
    reports complete intelligence, a suspicious scammer or stale turns. *)
Theorem engage_exit_by_turns_or_time (self : HoneypotAgent)
    (confidence : float) (cid : option string) (uuid4 : string)
    (o1 o2 : ModelOutcome) (rnd : Draws) (elapsed : Z)
    (Hstale : 0 < Policy.stale_turn_threshold (policy self)) :
  exists result self',
    engage self confidence cid uuid4 o1 o2 rnd elapsed = Some (result, self')
    /\ let limit := Spec.max_turns_of (policy self) (engagement_mode result) in
       let longest := Policy.max_duration_seconds (policy self) in
       (should_continue result = true
        <-> turn_number result < limit /\ elapsed < longest)
       /\ exit_reason result
          = (if turn_number result >=? limit
             then Some ("Max turns reached (" ++ Policy.str_of_int limit ++ ")")
             else if elapsed >=? longest
             then Some ("Max duration exceeded ("
                          ++ Policy.str_of_int longest ++ "s)")
             else None).
Proof.
  destruct (engage_spec self confidence cid uuid4 o1 o2 rnd elapsed)
    as (result & self' & after & Heng & _ & _ & _ & _ & _ & _ & _ & _ & _ & _
        & Hcont & Hexit).
  exists result, self'. split; [exact Heng|]. cbv zeta.
  rewrite Hcont, Hexit.
  unfold Policy.should_continue, Policy.get_exit_reason.
  rewrite max_turns_spec.
  cbn [Policy.mode Policy.turn_count Policy.duration_seconds
         Policy.intelligence_complete Policy.scammer_suspicious
         Policy.turns_since_new_info].
  replace (0 >=? Policy.stale_turn_threshold (policy self)) with false
    by (symmetry; rewrite Z.geb_leb; apply Z.leb_gt; lia).
  repeat match goal with
         | |- context [ (?a >=? ?b) ] =>
             rewrite (Z.geb_leb a b); destruct (Z.leb_spec b a)
         end; split; try reflexivity; split; intros; try discriminate; try lia.
Qed.

Lemma conv_id_of_some (id uuid4 : string) :
  id <> "" -> conv_id_of (Some id) uuid4 = id.
Proof. destruct id; [congruence|reflexivity]. Qed.

(** A conversation, result by result. *)
Lemma engage_all_results (uuid4 id : string) (Hid : id <> "")
    (turns : list Turn) :
  forall self : HoneypotAgent,
  let base :=
    engagement_turn
      (default new_persona (personas (persona_manager self) !! id)) in
  exists results self',
    engage_all self id uuid4 turns = Some (results, self')
    /\ policy self' = policy self
    /\ List.length results = List.length turns
    /\ engagement_turn
         (default new_persona (personas (persona_manager self') !! id))
       = base + Z.of_nat (List.length turns)
    /\ (forall other, other <> id ->
          personas (persona_manager self') !! other
          = personas (persona_manager self) !! other)
    /\ forall (k : nat) r, results !! k = Some r ->
         exists t, turns !! k = Some t
           /\ turn_number r = base + Z.of_nat k + 1
           /\ conversation_id r = id
           /\ engagement_mode r
              = Policy.get_engagement_mode (policy self) (turn_confidence t)
           /\ (let state :=
                 {| Policy.mode :=
                      Policy.get_engagement_mode (policy self) (turn_confidence t);
                    Policy.turn_count := base + Z.of_nat k + 1;
                    Policy.duration_seconds := turn_elapsed t;
                    Policy.intelligence_complete := false;
                    Policy.scammer_suspicious := false;
                    Policy.turns_since_new_info := 0 |} in
               should_continue r = Policy.should_continue (policy self) state
               /\ exit_reason r = Policy.get_exit_reason (policy self) state).
Proof.
  induction turns as [|t rest IH]; intros self; cbv zeta.
  - exists [], self. cbn. repeat split; try lia. intros k r Hk. discriminate.
  - destruct (engage_spec self (turn_confidence t) (Some id) uuid4
                (turn_primary t) (turn_fallback t) (turn_draws t) (turn_elapsed t))
      as (r0 & self1 & after & Heng & Hpm & Hafter & Hpol & _ & _ & _ & _
          & Hcid & Hturn & Hmode & Hcont & Hexit).
    rewrite (conv_id_of_some _ _ Hid) in *.
    destruct (IH self1)
      as (results & self' & Hall & Hpol' & Hlen & Hend & Hother & Hres).
    assert (Hbase1 : engagement_turn
                       (default new_persona
                          (personas (persona_manager self1) !! id))
                     = engagement_turn
                         (default new_persona
                            (personas (persona_manager self) !! id)) + 1).
    { rewrite Hpm, lookup_insert_eq. destruct Hafter as [-> | ->]; reflexivity. }
    exists (r0 :: results), self'. cbn [engage_all]. rewrite Heng. cbn.
    rewrite Hall. cbn.
    split; [reflexivity|]. split; [congruence|]. split; [lia|].
    split; [rewrite Hend, Hbase1; lia|].
    split.
    { intros other Hne. rewrite (Hother other Hne), Hpm.
      apply lookup_insert_ne. congruence. }
    intros [|k] r Hk; cbn in Hk.
    + injection Hk as <-. exists t. split; [reflexivity|].
      rewrite Hturn, Hcid. split; [cbn; lia|]. split; [reflexivity|].
      split; [exact Hmode|].
      cbv zeta in Hcont, Hexit. rewrite Hcont, Hexit, Hturn, Hmode.
      replace (engagement_turn
                 (default new_persona (personas (persona_manager self) !! id))
               + Z.of_nat 0 + 1)
        with (engagement_turn
                (default new_persona (personas (persona_manager self) !! id)) + 1)
        by (cbn; lia).
      split; reflexivity.
    + destruct (Hres k r Hk) as (t' & Ht' & Hn & Hc & Hm & Hsc & Her).
      exists t'. split; [exact Ht'|].
      rewrite Hbase1, Hpol in *.
      replace (engagement_turn
                 (default new_persona (personas (persona_manager self) !! id))
               + Z.of_nat (S k) + 1)
        with (engagement_turn
                (default new_persona (personas (persona_manager self) !! id))
              + 1 + Z.of_nat k + 1) by lia.
      auto.
Qed.

(** X11. A conversation of any number of [engage] calls never fails and
    numbers its turns: the k-th result carries the conversation's id and
    the turn number k above the turn the persona was at (k itself for a
    new conversation); afterwards the persona is at the last of these
    turns, and the other conversations and the policy are untouched. *)
Theorem conversation_turn_numbers (self : HoneypotAgent) (id uuid4 : string)
    (turns : list Turn) (Hid : id <> "") :
  let base :=
    engagement_turn
      (default new_persona (personas (persona_manager self) !! id)) in
  exists results self',
    engage_all self id uuid4 turns = Some (results, self')
    /\ List.length results = List.length turns
    /\ (forall (k : nat) r, results !! k = Some r ->
          turn_number r = base + Z.of_nat k + 1 /\ conversation_id r = id)
    /\ engagement_turn
         (default new_persona (personas (persona_manager self') !! id))
       = base + Z.of_nat (List.length turns)
    /\ policy self' = policy self
    /\ (forall other, other <> id ->
          personas (persona_manager self') !! other
          = personas (persona_manager self) !! other).
Proof.
  cbv zeta.
  destruct (engage_all_results uuid4 id Hid turns self)
    as (results & self' & Hall & Hpol & Hlen & Hend & Hother & Hres).
  exists results, self'. repeat split; try assumption.
  - destruct (Hres k r H) as (t & _ & Hn & _). exact Hn.
  - destruct (Hres k r H) as (t & _ & _ & Hc & _). exact Hc.
Qed.

Lemma stop_at_turn_limit (pol : Policy.EngagementPolicy)
    (state : Policy.EngagementState) :
  Z.max (Policy.max_turns_cautious pol) (Policy.max_turns_aggressive pol)
    <= Policy.turn_count state ->
  Policy.should_continue pol state = false
  /\ Policy.get_exit_reason pol state
     = Some ("Max turns reached ("
               ++ Policy.str_of_int (Spec.max_turns_of pol (Policy.mode state))
               ++ ")").
Proof.
  intros Hmax. unfold Policy.should_continue, Policy.get_exit_reason.
  rewrite max_turns_spec.
  assert (Hlim : Spec.max_turns_of pol (Policy.mode state)
                 <= Policy.turn_count state).
  { destruct (Policy.mode state); cbn; lia. }
  rewrite Z.geb_leb.
  destruct (Z.leb_spec (Spec.max_turns_of pol (Policy.mode state))
              (Policy.turn_count state)); [split; reflexivity|lia].
Qed.

(** X12. A conversation is bounded: from the turn that reaches the larger
    of the two turn limits on, every result of [engage] says to stop and
    gives a turn limit as the reason, whatever the confidence, the
    models' answers and the elapsed time. *)
Theorem conversation_is_bounded (self : HoneypotAgent) (id uuid4 : string)
    (turns : list Turn) (Hid : id <> "") :
  let base :=
    engagement_turn
      (default new_persona (personas (persona_manager self) !! id)) in
  let bound := Z.max (Policy.max_turns_cautious (policy self))
                     (Policy.max_turns_aggressive (policy self)) in
  exists results self',
    engage_all self id uuid4 turns = Some (results, self')
    /\ forall (k : nat) r, results !! k = Some r ->
         bound <= base + Z.of_nat k + 1 ->
         should_continue r = false
         /\ exit_reason r
            = Some ("Max turns reached ("
                      ++ Policy.str_of_int
                           (Spec.max_turns_of (policy self) (engagement_mode r))
                      ++ ")").
Proof.
  cbv zeta.
  destruct (engage_all_results uuid4 id Hid turns self)
    as (results & self' & Hall & Hpol & Hlen & Hend & Hother & Hres).
  exists results, self'. split; [exact Hall|].
  intros k r Hk Hbound.
  destruct (Hres k r Hk) as (t & Ht & Hn & Hc & Hm & Hsc & Her).
  cbv zeta in Hsc, Her. rewrite Hsc, Her, Hm.
  apply stop_at_turn_limit. exact Hbound.
Qed.

(** X13. The conversation id of a result: the id given, where it is
    given and not empty; an empty id is treated as no id and gives the
    generated one, so that the result's id is never empty when the
    generated one is not; the persona of the turn is stored under the
    result's id. *)
Theorem engage_conversation_id (self : HoneypotAgent) (confidence : float)
    (cid : option string) (uuid4 : string) (o1 o2 : ModelOutcome)
    (rnd : Draws) (elapsed : Z) :
  engage self confidence (Some "") uuid4 o1 o2 rnd elapsed
  = engage self confidence None uuid4 o1 o2 rnd elapsed
  /\ exists result self',
       engage self confidence cid uuid4 o1 o2 rnd elapsed = Some (result, self')
       /\ (forall id, cid = Some id -> id <> "" -> conversation_id result = id)
       /\ (cid = None \/ cid = Some "" -> conversation_id result = uuid4)
       /\ (uuid4 <> "" -> conversation_id result <> "")
       /\ is_Some (personas (persona_manager self') !! conversation_id result).
Proof.
  split; [reflexivity|].
  destruct (engage_spec self confidence cid uuid4 o1 o2 rnd elapsed)
    as (result & self' & after & Heng & Hpm & _ & _ & _ & _ & _ & _ & Hcid & _).
  exists result, self'. split; [exact Heng|]. rewrite Hcid, Hpm.
  split; [intros id -> Hid; apply conv_id_of_some, Hid|].
  split; [intros [-> | ->]; reflexivity|].
  split; [|rewrite lookup_insert_eq; eauto].
  intros Hu. destruct cid as [[|c id]|]; cbn; congruence.
Qed.

(** X14. [end_conversation] removes the persona of the conversation and
    nothing else, and doing it twice is doing it once; the next [engage]
    for that conversation starts over: turn 1, the default traits, no
    claimed issue, no mentioned detail, at most the extraction of that
    turn. *)
Theorem end_conversation_starts_over (self : HoneypotAgent) (id : string)
    (confidence : float) (uuid4 : string) (o1 o2 : ModelOutcome)
    (rnd : Draws) (elapsed : Z) (Hid : id <> "") :
  let ended := end_conversation self id in
  personas (persona_manager ended) !! id = None
  /\ (forall other, other <> id ->
        personas (persona_manager ended) !! other
        = personas (persona_manager self) !! other)
  /\ policy ended = policy self
  /\ end_conversation ended id = ended
  /\ exists result self' after,
       engage ended confidence (Some id) uuid4 o1 o2 rnd elapsed
       = Some (result, self')
       /\ turn_number result = 1
       /\ personas (persona_manager self') !! id = Some after
       /\ engagement_turn after = 1
       /\ 0 <= extracted_info_count after <= 1
       /\ traits after = [TRUSTING; WORRIED; TECH_NAIVE]
       /\ claimed_issues after = []
       /\ mentioned_details after = ∅.
Proof.
  cbv zeta.
  assert (Hgone : personas (persona_manager (end_conversation self id)) !! id
                  = None) by apply lookup_delete_eq.
  split; [exact Hgone|].
  split; [intros other Hne; apply lookup_delete_ne; congruence|].
  split; [reflexivity|].
  split.
  { unfold end_conversation, with_manager, clear_persona.
    cbn [persona_manager personas policy model fallback_model _last_model_used].
    f_equal. f_equal. apply delete_id, lookup_delete_eq. }
  destruct (engage_spec (end_conversation self id) confidence (Some id) uuid4
              o1 o2 rnd elapsed)
    as (result & self' & after & Heng & Hpm & Hafter & _ & _ & _ & _ & _ & _
        & Hturn & _).
  rewrite (conv_id_of_some _ _ Hid) in *. rewrite Hgone in *.
  exists result, self', after. split; [exact Heng|].
  split; [rewrite Hturn; reflexivity|].
  split; [rewrite Hpm; apply lookup_insert_eq|].
  destruct Hafter as [-> | ->]; cbn; repeat split; lia.
Qed.

Lemma try_models_both (m1 m2 : string) (o1 o2 : ModelOutcome)
    (last : option string) :
  try_models [(m1, o1); (m2, o2)] None last
  = (loop_text o1 o2,
     if negb (unusable o1) then Some m1
     else if negb (unusable o2) then Some m2
     else last).
Proof.
  destruct o1 as [|t1], o2 as [|t2]; cbn [try_models loop_text unusable];
    try destruct (usable t1); try destruct (usable t2); reflexivity.
Qed.

(** X15. Which model [_last_model_used] names after
    [_generate_response]: the word fallback where the loop ends with a
    missing or empty text, which are the cases in which the canned reply
    is used; otherwise the primary model where its text is usable, and
    then the fallback model is not consulted at all; otherwise the
    fallback model where its text is usable; otherwise, no text being
    usable and the loop ending with a text of blanks, the name an earlier
    call left, the blanks being answered as they are. *)
Theorem last_model_used_tracking (self : HoneypotAgent) (persona : Persona)
    (o1 o2 : ModelOutcome) (rnd : Draws) :
  let out := _generate_response self persona o1 o2 rnd in
  _last_model_used out.2
  = (if empty_text (loop_text o1 o2) then Some "fallback"
     else if negb (unusable o1) then Some (model self)
     else if negb (unusable o2) then Some (fallback_model self)
     else _last_model_used self)
  /\ (empty_text (loop_text o1 o2) = true ->
      out.1.1 = _get_fallback_response (draw_fallback rnd))
  /\ (forall text, loop_text o1 o2 = Some text -> text <> "" ->
      forall reply, out.1.1 = Some reply ->
        reply = add_modifier persona text
        \/ exists question,
             reply = PyStr.rstrip_dot (add_modifier persona text)
                       ++ " " ++ question)
  /\ (unusable o1 = false ->
      forall o2', _generate_response self persona o1 o2' rnd = out).
Proof.
  cbv zeta. unfold _generate_response. rewrite try_models_both.
  split; [|split; [|split]].
  - destruct (loop_text o1 o2) as [[|c t]|]; cbn [empty_text PyStr.truthy negb];
      [reflexivity| |reflexivity].
    repeat case_match; reflexivity.
  - destruct (loop_text o1 o2) as [[|c t]|]; cbn [empty_text PyStr.truthy negb];
      [reflexivity|discriminate|reflexivity].
  - intros text -> Hne reply. destruct text as [|c t]; [congruence|].
    destruct (extraction_question_drawn (draw_question rnd)) as (q & Hq & _).
    rewrite Hq.
    destruct (should_ask_extraction_question (draw_unit rnd) persona)
      as [[|]|]; cbn [fst].
    + destruct (mentions_keyword _); cbn [negb fst]; intros [= <-]; eauto.
    + intros [= <-]. auto.
    + discriminate.
  - intros Hus o2'. rewrite try_models_both.
    destruct o1 as [|t1]; [discriminate|]. cbn [unusable] in Hus.
    apply negb_false_iff in Hus. cbn [loop_text unusable]. rewrite Hus.
    reflexivity.
Qed.

(** X16. The emotional modifier never changes whether the extraction
    question may be appended: the text with its modifier mentions one of
    the four keywords exactly when the text alone does. *)
Theorem modifier_adds_no_keyword (persona : Persona) (response_text : string) :
  mentions_keyword (add_modifier persona response_text)
  = mentions_keyword response_text.
Proof.
  destruct (add_modifier_cases persona response_text) as [[-> | [_ ->]] _];
    [reflexivity|].
  unfold get_emotional_modifier. destruct (emotional_state persona); reflexivity.
Qed.

(** X17. The modifier is never doubled: shaping a text that is shaped
    already changes nothing. *)
Theorem add_modifier_idempotent (persona : Persona) (response_text : string) :
  add_modifier persona (add_modifier persona response_text)
  = add_modifier persona response_text.
Proof.
  unfold add_modifier.
  destruct (engagement_turn persona >? 0); [|reflexivity].
  destruct (PyStr.truthy (get_emotional_modifier persona)); [|reflexivity].
  cbn [andb].
  destruct (PyStr.startswith response_text (get_emotional_modifier persona))
    eqn:Hst; cbn [negb].
  - rewrite Hst. reflexivity.
  - rewrite startswith_app. reflexivity.
Qed.

Lemma last_n_app {A} (n : nat) (old recent : list A) :
  (n <= List.length recent)%nat -> last_n n (old ++ recent) = last_n n recent.
Proof.
  intros Hn. unfold last_n. rewrite List.length_app, List.skipn_app.
  rewrite List.skipn_all2 by lia. cbn [app]. f_equal. lia.
Qed.

Lemma firstn_app_enough {A} (n : nat) (first more : list A) :
  (n <= List.length first)%nat -> firstn n (first ++ more) = firstn n first.
Proof.
  intros Hn. rewrite List.firstn_app.
  replace (n - List.length first)%nat with 0%nat by lia.
  cbn [firstn]. apply List.app_nil_r.
Qed.

(** X18. What the prompt is built from: the text of the message, the
    last ten entries of the history, the descriptions (not the
    categories) of the first five matched patterns, and the emotional
    state and the turn of the persona. Two calls that agree on these give
    the same prompt: older history, further patterns, the categories, the
    confidence and the rest of the persona do not change it. *)
Theorem build_prompt_window (message : Message)
    (history history' : list ConversationMessage)
    (detection detection' : DetectionResult)
    (persona persona' : Persona)
    (Hhistory : last_n 10 history' = last_n 10 history)
    (Hpatterns : map description (firstn 5 (matched_patterns detection'))
                 = map description (firstn 5 (matched_patterns detection)))
    (Hstate : emotional_state persona' = emotional_state persona)
    (Hturn : engagement_turn persona' = engagement_turn persona) :
  _build_prompt message history' detection' persona'
  = _build_prompt message history detection persona
  /\ (forall old recent : list ConversationMessage,
        (10 <= List.length recent)%nat ->
        last_n 10 (old ++ recent) = last_n 10 recent)
  /\ (forall first more : list MatchedPattern,
        (5 <= List.length first)%nat ->
        firstn 5 (first ++ more) = firstn 5 first).
Proof.
  split; [|split].
  - unfold _build_prompt. rewrite Hhistory, Hpatterns, Hstate, Hturn.
    reflexivity.
  - intros old recent Hlen. apply last_n_app, Hlen.
  - intros first more Hlen. apply firstn_app_enough, Hlen.
Qed.

(** X20. Mode and emotion agree at the top: with an aggressive threshold
    above 0.8 (the documented one is 0.85), a turn that [engage] reports
    as aggressive leaves the persona panicked, so that the next text of a
    model is opened with the panicked modifier. *)
Theorem aggressive_turn_is_panicked (self : HoneypotAgent) (confidence : float)
    (cid : option string) (uuid4 : string) (o1 o2 : ModelOutcome)
    (rnd : Draws) (elapsed : Z)
    (Hthr : PyFloat.lt (PyFloat.lit 8 10)
              (Policy.aggressive_threshold (policy self)) = true) :
  exists result self' after,
    engage self confidence cid uuid4 o1 o2 rnd elapsed = Some (result, self')
    /\ personas (persona_manager self') !! conversation_id result = Some after
    /\ (engagement_mode result = Policy.AGGRESSIVE ->
        emotional_state after = PANICKED
        /\ get_emotional_modifier after = "Oh god, please help! ").
Proof.
  destruct (engage_spec self confidence cid uuid4 o1 o2 rnd elapsed)
    as (result & self' & after & Heng & Hpm & Hafter & _ & _ & _ & _ & _
        & Hcid & _ & Hmode & _).
  exists result, self', after. split; [exact Heng|].
  split; [rewrite Hcid, Hpm; apply lookup_insert_eq|].
  rewrite Hmode. unfold Policy.get_engagement_mode.
  destruct (PyFloat.ge confidence (Policy.aggressive_threshold (policy self)))
    eqn:Hge;
    [|destruct (PyFloat.ge confidence (Policy.cautious_threshold (policy self)));
      intros H; discriminate H].
  intros _.
  assert (Hpan : PyFloat.gt confidence f0_8 = true).
  { unfold PyFloat.gt. eapply float_lt_le_trans; [exact Hthr|exact Hge]. }
  assert (Hemo : emotional_state after = PANICKED).
  { destruct Hafter as [-> | ->]; cbn; rewrite Hpan; reflexivity. }
  split; [exact Hemo|]. unfold get_emotional_modifier. rewrite Hemo. reflexivity.
Qed.

Lemma lstrip_by_empty (strip_it : ascii -> bool) (s : string) :
  PyStr.lstrip_by strip_it s = ""
  <-> existsb (fun c => negb (strip_it c)) (list_ascii_of_string s) = false.
Proof.
  induction s as [|c s IH]; cbn; [tauto|].
  destruct (strip_it c); cbn; [exact IH|]. split; discriminate.
Qed.

Lemma lstrip_by_head (strip_it : ascii -> bool) (s : string) (c : ascii)
    (rest : string) :
  PyStr.lstrip_by strip_it s = String c rest -> strip_it c = false.
Proof.
  induction s as [|d s IH]; cbn; [discriminate|].
  destruct (strip_it d) eqn:Hd; [exact IH|]. intros [= -> _]. exact Hd.
Qed.

Lemma rstrip_by_head_kept (strip_it : ascii -> bool) (c : ascii) (rest : string) :
  strip_it c = false -> PyStr.rstrip_by strip_it (String c rest) <> "".
Proof.
  intros Hc. cbn. destruct (PyStr.rstrip_by strip_it rest); [rewrite Hc|];
    discriminate.
Qed.

(** X21. A model's text is usable, and so ends the loop over the models,
    exactly when it has a character that is not white space; a missing
    text is not. *)
Theorem usable_iff_visible (response_text : option string) :
  usable response_text
  = match response_text with
    | None => false
    | Some s =>
        existsb (fun c => negb (PyStr.is_space c)) (list_ascii_of_string s)
    end.
Proof.
  destruct response_text as [s|]; [|reflexivity].
  unfold usable, PyStr.strip.
  destruct (existsb _ (list_ascii_of_string s)) eqn:Hex.
  - destruct (PyStr.lstrip_by PyStr.is_space s) as [|c rest] eqn:Hl.
    + apply lstrip_by_empty in Hl. congruence.
    + pose proof (rstrip_by_head_kept PyStr.is_space c rest
                    (lstrip_by_head _ _ _ _ Hl)) as Hne.
      destruct (PyStr.rstrip_by PyStr.is_space (String c rest)) as [|k kept];
        [congruence|].
      destruct s; [discriminate|reflexivity].
  - apply lstrip_by_empty in Hex. rewrite Hex. cbn.
    apply andb_false_r.
Qed.

End AgentMore.

(** ** Prompts *)

Section PromptsMore.

Import Prompts.

(** X19. [get_response_strategy] never fails and never returns an empty
    list: every category gets three non-empty strategies, and a category
    that is not one of the four keys (the keys are matched exactly) gets
    the strategies of ["urgency"]. *)
Theorem response_strategy_default (scam_category : string) :
  exists strategies,
    get_response_strategy scam_category = Some strategies
    /\ List.length strategies = 3%nat
    /\ Forall (fun s => s <> "") strategies
    /\ (~ In scam_category ["urgency"; "authority"; "financial"; "threat"] ->
        get_response_strategy scam_category = get_response_strategy "urgency").
Proof.
  unfold get_response_strategy.
  set (urgency := dict_get RESPONSE_STRATEGIES "urgency").
  vm_compute in urgency. subst urgency. cbn [mbind option_bind].
  unfold RESPONSE_STRATEGIES. cbn [dict_get].
  destruct (String.eqb_spec "urgency" scam_category) as [<-|H1].
  { eexists. split; [reflexivity|]. split; [reflexivity|].
    split; [repeat constructor; discriminate|]. intros _. reflexivity. }
  destruct (String.eqb_spec "authority" scam_category) as [<-|H2].
  { eexists. split; [reflexivity|]. split; [reflexivity|].
    split; [repeat constructor; discriminate|]. intros Hn. exfalso. apply Hn.
    cbn. auto. }
  destruct (String.eqb_spec "financial" scam_category) as [<-|H3].
  { eexists. split; [reflexivity|]. split; [reflexivity|].
    split; [repeat constructor; discriminate|]. intros Hn. exfalso. apply Hn.
    cbn. auto. }
  destruct (String.eqb_spec "threat" scam_category) as [<-|H4].
  { eexists. split; [reflexivity|]. split; [reflexivity|].
    split; [repeat constructor; discriminate|]. intros Hn. exfalso. apply Hn.
    cbn. auto. }
  eexists. split; [reflexivity|]. split; [reflexivity|].
  split; [repeat constructor; discriminate|]. intros _. reflexivity.
Qed.

End PromptsMore.

(** ** The further properties on sample values *)

Lemma stop_is_final_sample :
  let self := Policy.init Policy.documented_settings in
  Policy.should_continue self Sample.state_at_limit = false
  /\ Policy.should_continue self Sample.state_later = false.
Proof.
  intros self.
  assert (Hstop : Policy.should_continue self Sample.state_at_limit = false)
    by reflexivity.
  split; [exact Hstop|].
  apply (stop_is_final self Sample.state_at_limit Sample.state_later);
    try reflexivity; try exact Hstop; cbn; try lia; auto.
Defined.

Lemma engagement_mode_tiers_sample :
  let self := Policy.init Policy.documented_settings in
  (PyFloat.is_nan S754_nan = true
   /\ PyFloat.le (Policy.cautious_threshold self)
        (Policy.aggressive_threshold self) = true)
  /\ Policy.get_engagement_mode self S754_nan = Policy.NONE
  /\ (Policy.get_engagement_mode self S754_nan = Policy.NONE
      <-> PyFloat.is_nan S754_nan = true
          \/ PyFloat.lt S754_nan (Policy.cautious_threshold self) = true).
Proof.
  intros self.
  assert (H1 : PyFloat.is_nan S754_nan = true) by reflexivity.
  assert (H2 : PyFloat.le (Policy.cautious_threshold self)
                 (Policy.aggressive_threshold self) = true)
    by (vm_compute; reflexivity).
  destruct (engagement_mode_tiers self S754_nan) as (Hnan & Hord & _).
  split; [auto|]. split; [exact (Hnan H1)|]. exact (proj2 (Hord H2)).
Defined.

Lemma get_or_create_persona_idempotent_sample :
  PersonaM.personas PersonaM.new_manager !! "c1" = None
  /\ (PersonaM.get_or_create_persona PersonaM.new_manager "c1").1
     = PersonaM.new_persona.
Proof.
  assert (H : PersonaM.personas PersonaM.new_manager !! "c1" = None)
    by reflexivity.
  split; [exact H|].
  destruct (get_or_create_persona_idempotent PersonaM.new_manager "c1")
    as (_ & Hnew & _).
  exact (Hnew H).
Defined.

Lemma update_persona_run_sample :
  let steps := [(PyFloat.lit 9 10, false); (PyFloat.lit 9 10, true);
                (PyFloat.lit 3 10, false)] in
  let after :=
    default PersonaM.new_persona
      (PersonaM.personas (Runs.update_all PersonaM.new_manager "c1" steps)
       !! "c1") in
  last steps = Some (PyFloat.lit 3 10, false)
  /\ PersonaM.engagement_turn after = 3
  /\ PersonaM.extracted_info_count after = 1
  /\ PersonaM.emotional_state after = PersonaM.CALM.
Proof.
  intros steps after.
  assert (H : last steps = Some (PyFloat.lit 3 10, false)) by reflexivity.
  destruct (update_persona_run PersonaM.new_manager "c1" steps)
    as (Hturn & Hcount & Hemo & _).
  split; [exact H|]. split; [exact Hturn|]. split; [exact Hcount|].
  unfold after. rewrite (Hemo _ _ H). vm_compute. reflexivity.
Defined.

Lemma get_persona_context_effect_sample :
  let out :=
    PersonaM.get_persona_context Sample.manager_with_c1 "c1" (PyFloat.lit 1 2) in
  is_Some (PersonaM.personas Sample.manager_with_c1 !! "c1")
  /\ out.2 = Sample.manager_with_c1
  /\ (PersonaM.ctx_emotional_state <$> out.1) = Some "panicked".
Proof.
  intros out.
  assert (H : is_Some (PersonaM.personas Sample.manager_with_c1 !! "c1"))
    by (vm_compute; eauto).
  destruct (get_persona_context_effect Sample.manager_with_c1 "c1"
              (PyFloat.lit 1 2)) as (_ & _ & Hsame & _).
  split; [exact H|]. split; [exact (Hsame H)|]. vm_compute. reflexivity.
Defined.




Lemma engage_exit_by_turns_or_time_sample :
  0 < Policy.stale_turn_threshold (Agent.policy Sample.agent)
  /\ exists result agent',
       Agent.engage Sample.agent (PyFloat.lit 7 10) None "uuid-1"
         Agent.Raises Agent.Raises Sample.draws 700 = Some (result, agent')
       /\ Agent.exit_reason result = Some "Max duration exceeded (600s)".
Proof.
  assert (H : 0 < Policy.stale_turn_threshold (Agent.policy Sample.agent))
    by (cbn; lia).
  split; [exact H|].
  destruct (engage_exit_by_turns_or_time Sample.agent (PyFloat.lit 7 10) None
              "uuid-1" Agent.Raises Agent.Raises Sample.draws 700 H)
    as (result & agent' & Heng & _ & Hexit).
  exists result, agent'. split; [exact Heng|].
  rewrite Hexit. vm_compute in Heng. injection Heng as <- _. reflexivity.
Defined.

Lemma conversation_turn_numbers_sample :
  "c1" <> ""
  /\ exists results agent',
       Agent.engage_all Sample.agent "c1" "uuid-1" Sample.turns
       = Some (results, agent')
       /\ List.length results = 3%nat
       /\ forall (k : nat) r, results !! k = Some r ->
            Agent.turn_number r = Z.of_nat k + 1.
Proof.
  assert (H : "c1" <> "") by discriminate.
  split; [exact H|].
  destruct (conversation_turn_numbers Sample.agent "c1" "uuid-1" Sample.turns H)
    as (results & agent' & Hall & Hlen & Hnum & _).
  exists results, agent'. split; [exact Hall|]. split; [exact Hlen|].
  intros k r Hk. destruct (Hnum k r Hk) as [Hn _]. exact Hn.
Defined.

Lemma conversation_is_bounded_sample :
  "c1" <> ""
  /\ exists results agent',
       Agent.engage_all Sample.short_agent "c1" "uuid-1" Sample.turns
       = Some (results, agent')
       /\ forall r, results !! 2%nat = Some r ->
            Agent.should_continue r = false.
Proof.
  assert (H : "c1" <> "") by discriminate.
  split; [exact H|].
  destruct (conversation_is_bounded Sample.short_agent "c1" "uuid-1"
              Sample.turns H) as (results & agent' & Hall & Hstop).
  exists results, agent'. split; [exact Hall|].
  intros r Hr. apply (Hstop 2%nat r Hr). vm_compute. discriminate.
Defined.

Lemma engage_conversation_id_sample :
  "uuid-1" <> ""
  /\ exists result agent',
       Agent.engage Sample.agent (PyFloat.lit 9 10) (Some "") "uuid-1"
         Agent.Raises Agent.Raises Sample.draws 0 = Some (result, agent')
       /\ Agent.conversation_id result = "uuid-1"
       /\ Agent.conversation_id result <> "".
Proof.
  assert (H : "uuid-1" <> "") by discriminate.
  split; [exact H|].
  destruct (engage_conversation_id Sample.agent (PyFloat.lit 9 10) (Some "")
              "uuid-1" Agent.Raises Agent.Raises Sample.draws 0)
    as (_ & result & agent' & Heng & _ & Hempty & Hne & _).
  exists result, agent'. split; [exact Heng|].
  split; [apply Hempty; right; reflexivity|exact (Hne H)].
Defined.

Lemma end_conversation_starts_over_sample :
  let agent :=
    Agent.with_manager Sample.agent Sample.manager_with_c1 in
  "c1" <> ""
  /\ exists result agent',
       Agent.engage (Agent.end_conversation agent "c1") (PyFloat.lit 3 10)
         (Some "c1") "uuid-1" Agent.Raises Agent.Raises Sample.draws 0
       = Some (result, agent')
       /\ Agent.turn_number result = 1.
Proof.
  intros agent.
  assert (H : "c1" <> "") by discriminate.
  split; [exact H|].
  destruct (end_conversation_starts_over agent "c1" (PyFloat.lit 3 10) "uuid-1"
              Agent.Raises Agent.Raises Sample.draws 0 H)
    as (_ & _ & _ & _ & result & agent' & after & Heng & Hturn & _).
  exists result, agent'. split; [exact Heng|exact Hturn].
Defined.

Lemma last_model_used_tracking_sample :
  let o1 := Agent.Returns (Some "  ") in
  let o2 := Agent.Returns None in
  let out :=
    Agent._generate_response Sample.agent PersonaM.new_persona o1 o2
      Sample.draws in
  Agent.empty_text (Agent.loop_text o1 o2) = true
  /\ Agent._last_model_used out.2 = Some "fallback"
  /\ out.1.1 = Some "My phone is acting up. What do I need to do exactly?".
Proof.
  intros o1 o2 out.
  assert (H : Agent.empty_text (Agent.loop_text o1 o2) = true) by reflexivity.
  split; [exact H|].
  destruct (last_model_used_tracking Sample.agent PersonaM.new_persona o1 o2
              Sample.draws) as (Hlast & Hcanned & _).
  split; [exact Hlast|]. exact (Hcanned H).
Defined.

Lemma build_prompt_window_sample :
  let recent := repeat (Sample.scammer_says "Pay now") 10 in
  let history' := ([Sample.scammer_says "Hello"] ++ recent)%list in
  let detection :=
    {| Agent.confidence := PyFloat.zero;
       Agent.matched_patterns := repeat (Sample.pattern "urgent") 5 |} in
  let detection' :=
    {| Agent.confidence := PyFloat.lit 9 10;
       Agent.matched_patterns :=
         (repeat {| Agent.description := "urgent"; Agent.category := "threat" |} 5
          ++ [Sample.pattern "otp"])%list |} in
  (Agent.last_n 10 history' = Agent.last_n 10 recent
   /\ map Agent.description (firstn 5 (Agent.matched_patterns detection'))
      = map Agent.description (firstn 5 (Agent.matched_patterns detection)))
  /\ Agent._build_prompt {| Agent.message_text := "Send the OTP" |} history'
       detection' Sample.manager_persona
     = Agent._build_prompt {| Agent.message_text := "Send the OTP" |} recent
         detection PersonaM.new_persona.
Proof.
  intros recent history' detection detection'.
  assert (H1 : Agent.last_n 10 history' = Agent.last_n 10 recent)
    by reflexivity.
  assert (H2 : map Agent.description
                 (firstn 5 (Agent.matched_patterns detection'))
               = map Agent.description
                   (firstn 5 (Agent.matched_patterns detection)))
    by reflexivity.
  split; [auto|].
  exact (proj1 (build_prompt_window {| Agent.message_text := "Send the OTP" |}
                  recent history' detection detection' PersonaM.new_persona
                  Sample.manager_persona H1 H2 eq_refl eq_refl)).
Defined.

Lemma response_strategy_default_sample :
  ~ In "phishing" ["urgency"; "authority"; "financial"; "threat"]
  /\ Prompts.get_response_strategy "phishing"
     = Prompts.get_response_strategy "urgency".
Proof.
  assert (H : ~ In "phishing" ["urgency"; "authority"; "financial"; "threat"]).
  { cbn. intros [H|[H|[H|[H|[]]]]]; discriminate. }
  split; [exact H|].
  destruct (response_strategy_default "phishing") as (l & _ & _ & _ & Hdef).
  exact (Hdef H).
Defined.

Lemma aggressive_turn_is_panicked_sample :
  PyFloat.lt (PyFloat.lit 8 10)
    (Policy.aggressive_threshold (Agent.policy Sample.agent)) = true
  /\ exists result agent' after,
       Agent.engage Sample.agent (PyFloat.lit 9 10) (Some "c1") "uuid-1"
         Agent.Raises Agent.Raises Sample.draws 0 = Some (result, agent')
       /\ PersonaM.personas (Agent.persona_manager agent')
          !! Agent.conversation_id result = Some after
       /\ (Agent.engagement_mode result = Policy.AGGRESSIVE ->
           PersonaM.emotional_state after = PersonaM.PANICKED
           /\ PersonaM.get_emotional_modifier after = "Oh god, please help! ").
Proof.
  assert (H : PyFloat.lt (PyFloat.lit 8 10)
                (Policy.aggressive_threshold (Agent.policy Sample.agent)) = true)
    by (vm_compute; reflexivity).
  split; [exact H|].
  exact (aggressive_turn_is_panicked Sample.agent (PyFloat.lit 9 10) (Some "c1")
           "uuid-1" Agent.Raises Agent.Raises Sample.draws 0 H).
Defined.
